(** * Screaming Flappy: the audio classification pipeline

    A shallow embedding of [audio_processor.py] (class
    [AdvancedAudioProcessor]) and the properties its design document
    states about it.

    Numbers.  Python floats and numpy scalars are modelled by exact
    rationals [Q]: comparisons, sums, products and quotients are the
    mathematical ones, and rounding, infinities and NaN are outside the
    model.  Python integers are [Z].  Where numpy would produce a
    non-finite value (a division by zero) the model stops with the
    exception [NonFinite] instead.

    numpy.  [np.sum], [np.mean], [np.percentile], [np.fft.rfftfreq],
    fancy indexing and broadcasting are rational functions and are
    written out.  [np.sqrt] and the magnitude spectrum
    [np.abs(np.fft.rfft(.))] are not; they are the two fields of the class
    [Numpy], over which the processor is parameterised.

    State.  The methods mutate [self]; they are written in a small state
    and exception monad over the record of the object's attributes, and an
    exception leaves the attributes as they were when it was raised. *)

From Stdlib Require Import ZArith QArith Qround Qabs List Bool Lia Lqa.
From Stdlib Require Import Permutation Sorted.
Import ListNotations.
Open Scope Q_scope.

(** ** Python values *)

(** [x < y] on numbers. *)
Definition Qltb (x y : Q) : bool := negb (Qle_bool y x).

(** The builtin [max(a, b)]: the first argument unless the second is
    greater. *)
Definition py_max (a b : Q) : Q := if Qltb a b then b else a.

(** The builtin [min(a, b)]: the first argument unless the second is
    smaller. *)
Definition py_min (a b : Q) : Q := if Qltb b a then b else a.

(** [sum] of a list of booleans, each counting for 0 or 1. *)
Definition py_sum_bool (l : list bool) : Z :=
  fold_right (fun b acc => (Z.b2z b + acc)%Z) 0%Z l.

(** [collections.deque(maxlen=k)]: [append] pushes on the right and drops
    from the left what exceeds [k]. *)
Definition deque_append {A : Type} (maxlen : nat) (d : list A) (x : A) : list A :=
  let d' := d ++ [x] in skipn (length d' - maxlen) d'.

(** [d[-1]] and [list(d)[-2]] of a sequence. *)
Definition last_opt {A : Type} (d : list A) : option A := nth_error (rev d) 0.
Definition second_last_opt {A : Type} (d : list A) : option A := nth_error (rev d) 1.

(** ** Exceptions and results *)

Inductive exn : Type :=
| IndexError
| ValueError
| ZeroDivisionError
| NonFinite.

Inductive res (A : Type) : Type :=
| Ok (a : A)
| Raise (e : exn).
Arguments Ok {A} a.
Arguments Raise {A} e.

Definition res_bind {A B : Type} (r : res A) (k : A -> res B) : res B :=
  match r with
  | Ok a => k a
  | Raise e => Raise e
  end.

(** ** numpy on rationals *)

Module Np.

(** [x ** 2], element by element. *)
Definition square (x : list Q) : list Q := map (fun v => v * v) x.

Definition sum (x : list Q) : Q := fold_right Qplus 0 x.

(** [np.mean]: of an empty array it is 0/0. *)
Definition mean (x : list Q) : res Q :=
  match x with
  | [] => Raise NonFinite
  | _ => Ok (sum x / inject_Z (Z.of_nat (length x)))
  end.

(** [a * b] on one-dimensional arrays, with broadcasting of a
    one-element operand. *)
Definition mul (a b : list Q) : res (list Q) :=
  if Nat.eqb (length a) (length b) then Ok (map (fun p => fst p * snd p) (combine a b))
  else match a, b with
       | [x], _ => Ok (map (fun y => x * y) b)
       | _, [y] => Ok (map (fun x => x * y) a)
       | _, _ => Raise ValueError
       end.

(** [a[idx]] with an array of non-negative indices. *)
Fixpoint take (a : list Q) (idx : list nat) : res (list Q) :=
  match idx with
  | [] => Ok []
  | i :: rest =>
      match nth_error a i with
      | None => Raise IndexError
      | Some v => res_bind (take a rest) (fun vs => Ok (v :: vs))
      end
  end.

(** [np.where(mask)[0]]: the positions at which the mask is set. *)
Fixpoint where_from (i : nat) (mask : list bool) : list nat :=
  match mask with
  | [] => []
  | b :: rest => if b then i :: where_from (S i) rest else where_from (S i) rest
  end.
Definition where_ (mask : list bool) : list nat := where_from 0 mask.

(** [np.fft.rfftfreq(n, d)]:
    [val = 1.0 / (n * d); N = n // 2 + 1; arange(0, N) * val]. *)
Definition rfftfreq (n : Z) (d : Q) : res (list Q) :=
  if Qeq_bool (inject_Z n * d) 0 then Raise ZeroDivisionError
  else
    let val := 1 / (inject_Z n * d) in
    let N := (n / 2 + 1)%Z in
    Ok (map (fun i => inject_Z (Z.of_nat i) * val) (seq 0 (Z.to_nat N))).

(** Sorting, as [np.percentile] orders its input. *)
Fixpoint insert (x : Q) (l : list Q) : list Q :=
  match l with
  | [] => [x]
  | y :: t => if Qle_bool x y then x :: l else y :: insert x t
  end.
Definition sort (l : list Q) : list Q := fold_right insert [] l.

(** numpy's interpolation between two neighbours. *)
Definition lerp (a b t : Q) : Q :=
  if Qle_bool (1 # 2) t then b - (b - a) * (1 - t) else a + (b - a) * t.

(** [np.percentile(a, q)], default (linear) method: the virtual index
    [(n - 1) * q / 100] in the sorted data, interpolated between its two
    neighbours.  An empty input has no percentile. *)
Definition percentile (a : list Q) (q : Q) : res Q :=
  match a with
  | [] => Raise NonFinite
  | _ =>
      let s := sort a in
      let n := Z.of_nat (length a) in
      let virtual_index := inject_Z (n - 1) * (q / 100) in
      let previous := Qfloor virtual_index in
      let next := Z.min (previous + 1) (n - 1) in
      let gamma := virtual_index - inject_Z previous in
      Ok (lerp (nth (Z.to_nat previous) s 0) (nth (Z.to_nat next) s 0) gamma)
  end.

End Np.

(** The two numpy routines that leave the rationals. *)
Class Numpy : Type := {
  np_sqrt : Q -> Q;
  np_rfft_abs : list Q -> list Q
}.

(** ** The processor's attributes *)

Definition AudioFrame : Type := list Q.

Record AdvancedAudioProcessor : Type := mkProcessor {
  samplerate : Q;
  blocksize : Z;
  sensitivity : Q;
  audio_buffer : list AudioFrame;
  freq_min : Q;
  freq_max : Q;
  freq_threshold : Q;
  centroid_history : list Q;
  centroid_threshold : Q;
  onset_history : list Q;
  onset_threshold : Q;
  noise_floor : Q;
  noise_floor_history : list Q;
  is_loud_smoothed : bool;
  loud_counter : Z;
  loud_threshold : Z;
  loud : bool;
  freq_band_mask : list bool;
  freq_band_indices : list nat
}.

Definition set_sensitivity_attr (v : Q) (s : AdvancedAudioProcessor) :=
  mkProcessor (samplerate s) (blocksize s) v (audio_buffer s) (freq_min s)
    (freq_max s) (freq_threshold s) (centroid_history s) (centroid_threshold s)
    (onset_history s) (onset_threshold s) (noise_floor s) (noise_floor_history s)
    (is_loud_smoothed s) (loud_counter s) (loud_threshold s) (loud s)
    (freq_band_mask s) (freq_band_indices s).

Definition set_audio_buffer (v : list AudioFrame) (s : AdvancedAudioProcessor) :=
  mkProcessor (samplerate s) (blocksize s) (sensitivity s) v (freq_min s)
    (freq_max s) (freq_threshold s) (centroid_history s) (centroid_threshold s)
    (onset_history s) (onset_threshold s) (noise_floor s) (noise_floor_history s)
    (is_loud_smoothed s) (loud_counter s) (loud_threshold s) (loud s)
    (freq_band_mask s) (freq_band_indices s).

Definition set_freq_threshold (v : Q) (s : AdvancedAudioProcessor) :=
  mkProcessor (samplerate s) (blocksize s) (sensitivity s) (audio_buffer s) (freq_min s)
    (freq_max s) v (centroid_history s) (centroid_threshold s)
    (onset_history s) (onset_threshold s) (noise_floor s) (noise_floor_history s)
    (is_loud_smoothed s) (loud_counter s) (loud_threshold s) (loud s)
    (freq_band_mask s) (freq_band_indices s).

Definition set_centroid_history (v : list Q) (s : AdvancedAudioProcessor) :=
  mkProcessor (samplerate s) (blocksize s) (sensitivity s) (audio_buffer s) (freq_min s)
    (freq_max s) (freq_threshold s) v (centroid_threshold s)
    (onset_history s) (onset_threshold s) (noise_floor s) (noise_floor_history s)
    (is_loud_smoothed s) (loud_counter s) (loud_threshold s) (loud s)
    (freq_band_mask s) (freq_band_indices s).

Definition set_onset_history (v : list Q) (s : AdvancedAudioProcessor) :=
  mkProcessor (samplerate s) (blocksize s) (sensitivity s) (audio_buffer s) (freq_min s)
    (freq_max s) (freq_threshold s) (centroid_history s) (centroid_threshold s)
    v (onset_threshold s) (noise_floor s) (noise_floor_history s)
    (is_loud_smoothed s) (loud_counter s) (loud_threshold s) (loud s)
    (freq_band_mask s) (freq_band_indices s).

Definition set_onset_threshold (v : Q) (s : AdvancedAudioProcessor) :=
  mkProcessor (samplerate s) (blocksize s) (sensitivity s) (audio_buffer s) (freq_min s)
    (freq_max s) (freq_threshold s) (centroid_history s) (centroid_threshold s)
    (onset_history s) v (noise_floor s) (noise_floor_history s)
    (is_loud_smoothed s) (loud_counter s) (loud_threshold s) (loud s)
    (freq_band_mask s) (freq_band_indices s).

Definition set_noise_floor_history (v : list Q) (s : AdvancedAudioProcessor) :=
  mkProcessor (samplerate s) (blocksize s) (sensitivity s) (audio_buffer s) (freq_min s)
    (freq_max s) (freq_threshold s) (centroid_history s) (centroid_threshold s)
    (onset_history s) (onset_threshold s) (noise_floor s) v
    (is_loud_smoothed s) (loud_counter s) (loud_threshold s) (loud s)
    (freq_band_mask s) (freq_band_indices s).

Definition set_loud_counter (v : Z) (s : AdvancedAudioProcessor) :=
  mkProcessor (samplerate s) (blocksize s) (sensitivity s) (audio_buffer s) (freq_min s)
    (freq_max s) (freq_threshold s) (centroid_history s) (centroid_threshold s)
    (onset_history s) (onset_threshold s) (noise_floor s) (noise_floor_history s)
    (is_loud_smoothed s) v (loud_threshold s) (loud s)
    (freq_band_mask s) (freq_band_indices s).

Definition set_loud (v : bool) (s : AdvancedAudioProcessor) :=
  mkProcessor (samplerate s) (blocksize s) (sensitivity s) (audio_buffer s) (freq_min s)
    (freq_max s) (freq_threshold s) (centroid_history s) (centroid_threshold s)
    (onset_history s) (onset_threshold s) (noise_floor s) (noise_floor_history s)
    (is_loud_smoothed s) (loud_counter s) (loud_threshold s) v
    (freq_band_mask s) (freq_band_indices s).

(** ** Methods: a state and exception monad over [self] *)

Definition M (A : Type) : Type :=
  AdvancedAudioProcessor -> res A * AdvancedAudioProcessor.

Definition ret {A : Type} (a : A) : M A := fun self => (Ok a, self).

Definition bind {A B : Type} (m : M A) (k : A -> M B) : M B :=
  fun self =>
    match m self with
    | (Ok a, self') => k a self'
    | (Raise e, self') => (Raise e, self')
    end.

Definition attr {A : Type} (f : AdvancedAudioProcessor -> A) : M A :=
  fun self => (Ok (f self), self).

Definition assign (f : AdvancedAudioProcessor -> AdvancedAudioProcessor) : M unit :=
  fun self => (Ok tt, f self).

Definition lift {A : Type} (r : res A) : M A := fun self => (r, self).

Declare Scope py_scope.
Delimit Scope py_scope with py.
Notation "x <- m ;; k" := (bind m (fun x => k))
  (at level 61, m at next level, right associativity) : py_scope.
Notation "m ;;; k" := (bind m (fun _ => k))
  (at level 61, right associativity) : py_scope.

Definition set_freq_band_mask (v : list bool) (s : AdvancedAudioProcessor) :=
  mkProcessor (samplerate s) (blocksize s) (sensitivity s) (audio_buffer s) (freq_min s)
    (freq_max s) (freq_threshold s) (centroid_history s) (centroid_threshold s)
    (onset_history s) (onset_threshold s) (noise_floor s) (noise_floor_history s)
    (is_loud_smoothed s) (loud_counter s) (loud_threshold s) (loud s)
    v (freq_band_indices s).

Definition set_freq_band_indices (v : list nat) (s : AdvancedAudioProcessor) :=
  mkProcessor (samplerate s) (blocksize s) (sensitivity s) (audio_buffer s) (freq_min s)
    (freq_max s) (freq_threshold s) (centroid_history s) (centroid_threshold s)
    (onset_history s) (onset_threshold s) (noise_floor s) (noise_floor_history s)
    (is_loud_smoothed s) (loud_counter s) (loud_threshold s) (loud s)
    (freq_band_mask s) v.

(** Division of Python floats raises on a zero divisor; division of numpy
    scalars yields a non-finite value there. *)
Definition py_div (a b : Q) : res Q :=
  if Qeq_bool b 0 then Raise ZeroDivisionError else Ok (a / b).
Definition np_div (a b : Q) : res Q :=
  if Qeq_bool b 0 then Raise NonFinite else Ok (a / b).

Local Open Scope py_scope.

(** [_setup_frequency_bands]: the frequency axis and the 500-4000 Hz mask. *)
Definition _setup_frequency_bands : M unit :=
  sr <- attr samplerate ;;
  d <- lift (py_div 1 sr) ;;
  bs <- attr blocksize ;;
  freqs <- lift (Np.rfftfreq bs d) ;;
  lo <- attr freq_min ;;
  hi <- attr freq_max ;;
  assign (set_freq_band_mask (map (fun f => Qle_bool lo f && Qle_bool f hi) freqs)) ;;;
  mask <- attr freq_band_mask ;;
  assign (set_freq_band_indices (Np.where_ mask)).

(** [__init__(samplerate, blocksize, sensitivity)]. *)
Definition __init__ (samplerate : Q) (blocksize : Z) (sensitivity : Q)
  : res unit * AdvancedAudioProcessor :=
  _setup_frequency_bands
    {| samplerate := samplerate;
       blocksize := blocksize;
       sensitivity := sensitivity;
       audio_buffer := [];
       freq_min := 500;
       freq_max := 4000;
       freq_threshold := 0.015;
       centroid_history := [];
       centroid_threshold := 0.4;
       onset_history := [];
       onset_threshold := 1.5;
       noise_floor := 0.002;
       noise_floor_history := [];
       is_loud_smoothed := false;
       loud_counter := 0;
       loud_threshold := 2;
       loud := false;
       freq_band_mask := [];
       freq_band_indices := [] |}.

(** [_calculate_onset_strength(frame)]. *)
Definition _calculate_onset_strength (frame : AudioFrame) : M Q :=
  buf <- attr audio_buffer ;;
  if (length buf <? 2)%nat then ret 0
  else
    let current_energy := Np.sum (Np.square frame) in
    if (1 <? length buf)%nat then
      match second_last_opt buf with
      | None => lift (Raise IndexError)
      | Some prev_frame =>
          let prev_energy := Np.sum (Np.square prev_frame) in
          if Qeq_bool prev_energy 0 then ret 0
          else
            onset_strength <- lift (np_div current_energy (prev_energy + 1e-10)) ;;
            ret onset_strength
      end
    else ret 0.

(** [_make_decision(rms, noise_floor, band_ratio, centroid, onset_strength)]. *)
Definition _make_decision (rms noise_floor band_ratio centroid onset_strength : Q)
  : M bool :=
  let rms_check := Qltb (noise_floor * 1.5) rms in
  let freq_check := Qltb 0.35 band_ratio in
  let centroid_check := Qltb 800 centroid && Qltb centroid 5000 in
  onset_threshold <- attr onset_threshold ;;
  let onset_check := Qltb onset_threshold onset_strength in
  let checks_passed := py_sum_bool [rms_check; freq_check; centroid_check; onset_check] in
  let decision := false in
  ret (if onset_check && freq_check then true
       else if (3 <=? checks_passed)%Z then true
       else decision).

(** Step 6 of [_process_audio]: the debounce counter and the published
    flag. *)
Definition debounce (is_loud : bool) : M unit :=
  c <- attr loud_counter ;;
  (if is_loud then assign (set_loud_counter (c + 1))
   else assign (set_loud_counter (Z.max 0 (c - 1)))) ;;;
  c <- attr loud_counter ;;
  t <- attr loud_threshold ;;
  assign (set_loud (t <=? c)%Z).

(** The two early returns of [_process_audio]. *)
Definition reset_loud : M unit :=
  assign (set_loud_counter 0) ;;; assign (set_loud false).

(** [is_loud()]. *)
Definition is_loud : M bool := attr loud.

(** [set_sensitivity(sensitivity)]. *)
Definition set_sensitivity (s : Q) : M unit :=
  assign (set_sensitivity_attr (py_max 0 (py_min 1 s))) ;;;
  sens <- attr sensitivity ;;
  assign (set_freq_threshold (0.020 - sens * 0.008)) ;;;
  sens <- attr sensitivity ;;
  assign (set_onset_threshold (2 - sens * 0.5)).

Section Processor.

Context {numpy : Numpy}.

(** [_calculate_spectral_centroid(magnitude)]. *)
Definition _calculate_spectral_centroid (magnitude : list Q) : M Q :=
  sr <- attr samplerate ;;
  d <- lift (py_div 1 sr) ;;
  bs <- attr blocksize ;;
  freqs <- lift (Np.rfftfreq bs d) ;;
  if Qeq_bool (Np.sum magnitude) 0 then ret 0
  else
    weighted <- lift (Np.mul freqs magnitude) ;;
    centroid <- lift (np_div (Np.sum weighted) (Np.sum magnitude)) ;;
    ret centroid.

(** Step 1 of [_process_audio]: the frame's RMS joins the history and the
    bottom decile of the history is the noise floor. *)
Definition observe_noise_floor (current_frame : AudioFrame) : M (Q * Q) :=
  mean_square <- lift (Np.mean (Np.square current_frame)) ;;
  let rms := np_sqrt mean_square in
  h <- attr noise_floor_history ;;
  assign (set_noise_floor_history (deque_append 100 h rms)) ;;;
  h <- attr noise_floor_history ;;
  noise_floor <- lift (Np.percentile h 10) ;;
  ret (rms, noise_floor).

(** [_process_audio()]. *)
Definition _process_audio : M unit :=
  buf <- attr audio_buffer ;;
  match last_opt buf with
  | None => ret tt
  | Some current_frame =>
      rn <- observe_noise_floor current_frame ;;
      let rms := fst rn in
      let noise_floor := snd rn in
      if Qltb rms (noise_floor * 1.5) then reset_loud
      else
        let magnitude := np_rfft_abs current_frame in
        idx <- attr freq_band_indices ;;
        band <- lift (Np.take magnitude idx) ;;
        let target_band_energy := Np.sum (Np.square band) in
        let total_energy := Np.sum (Np.square magnitude) in
        if Qeq_bool total_energy 0 then reset_loud
        else
          band_ratio <- lift (np_div target_band_energy total_energy) ;;
          centroid <- _calculate_spectral_centroid magnitude ;;
          h <- attr centroid_history ;;
          assign (set_centroid_history (deque_append 10 h centroid)) ;;;
          onset_strength <- _calculate_onset_strength current_frame ;;
          h <- attr onset_history ;;
          assign (set_onset_history (deque_append 8 h onset_strength)) ;;;
          is_loud <- _make_decision rms noise_floor band_ratio centroid onset_strength ;;
          debounce is_loud
  end.

(** [_audio_callback(indata, ...)]: one invocation per captured frame. *)
Definition _audio_callback (indata : AudioFrame) : M unit :=
  b <- attr audio_buffer ;;
  assign (set_audio_buffer (deque_append 4 b indata)) ;;;
  _process_audio.

(** The processor over a stream of frames; an exception of the callback
    does not undo what it had already written. *)
Definition feed (self : AdvancedAudioProcessor) (frames : list AudioFrame)
  : AdvancedAudioProcessor :=
  fold_left (fun s f => snd (_audio_callback f s)) frames self.

End Processor.

(** What a client of the object can do between two polls of [is_loud()]. *)
Inductive event : Type :=
| Frame (indata : AudioFrame)
| SetSensitivity (s : Q).

Definition step {numpy : Numpy} (self : AdvancedAudioProcessor) (ev : event)
  : AdvancedAudioProcessor :=
  match ev with
  | Frame indata => snd (_audio_callback indata self)
  | SetSensitivity s => snd (set_sensitivity s self)
  end.

Definition run {numpy : Numpy} (self : AdvancedAudioProcessor) (evs : list event)
  : AdvancedAudioProcessor :=
  fold_left step evs self.

(** The debouncer alone, driven by raw decisions: the counter and the flag
    after each step. *)
Fixpoint debounce_trace (self : AdvancedAudioProcessor) (ds : list bool)
  : list (Z * bool) :=
  match ds with
  | [] => []
  | d :: rest =>
      let self' := snd (debounce d self) in
      (loud_counter self', loud self') :: debounce_trace self' rest
  end.

(** ** Vocabulary of the design document *)



(** Sum of squared samples. *)
Definition energy (frame : AudioFrame) : Q := Np.sum (Np.square frame).

(** The clamp of a sensitivity to [0, 1]. *)
Definition clamp01 (s : Q) : Q := py_max 0 (py_min 1 s).

(** The debounce state is coherent. *)
Definition debounce_inv (self : AdvancedAudioProcessor) : Prop :=
  (0 <= loud_counter self)%Z /\
  loud self = (loud_threshold self <=? loud_counter self)%Z /\
  loud_threshold self = 2%Z.

(** The band attributes are the ones [_setup_frequency_bands] computes
    from the sample rate and the block size. *)
Definition bands_ready (self : AdvancedAudioProcessor) : Prop :=
  exists d freqs,
    py_div 1 (samplerate self) = Ok d /\
    Np.rfftfreq (blocksize self) d = Ok freqs /\
    freq_band_indices self =
      Np.where_ (map (fun f => Qle_bool (freq_min self) f && Qle_bool f (freq_max self)) freqs).

(** The transform of silence is silence. *)
Definition rfft_zero_law (numpy : Numpy) : Prop :=
  forall frame, Forall (fun x => x == 0) frame ->
                Forall (fun m => m == 0) (np_rfft_abs frame).

(** A frame of the configured size: [blocksize] samples, of which the
    real-input transform has [blocksize / 2 + 1] bins. *)
Definition well_sized {numpy : Numpy} (self : AdvancedAudioProcessor) (frame : AudioFrame)
  : Prop :=
  frame <> [] /\
  Z.of_nat (length frame) = blocksize self /\
  length (np_rfft_abs frame) = (length frame / 2 + 1)%nat.

(** A frame of the configured size whose spectrum carries no energy. *)
Definition zero_energy {numpy : Numpy} (self : AdvancedAudioProcessor) (frame : AudioFrame)
  : Prop :=
  well_sized self frame /\ Np.sum (Np.square (np_rfft_abs frame)) == 0.

(** ** A concrete numpy for two-sample frames

    With two samples the transform is [a + b, a - b] and needs no
    irrational twiddle factor; the square root is exact on squares of
    rationals.  The concrete runs below use frames [a, -a], whose RMS is
    [|a|]. *)
Module TwoSample.

Definition exact_sqrt (q : Q) : Q :=
  let r := Qred q in
  inject_Z (Z.sqrt (Qnum r)) / inject_Z (Z.sqrt (Zpos (Qden r))).

Definition dft_abs (frame : list Q) : list Q :=
  match frame with
  | [a] => [Qabs a]
  | [a; b] => [Qabs (a + b); Qabs (a - b)]
  | _ => []
  end.

Definition numpy : Numpy := {| np_sqrt := exact_sqrt; np_rfft_abs := dft_abs |}.

(** A processor at 4 kHz with blocks of two samples: bins at 0 and
    2000 Hz, the second inside the target band. *)
Definition processor : AdvancedAudioProcessor := snd (__init__ 4000 2 0.5).

Definition silence : AudioFrame := [0; 0].
Definition quiet : AudioFrame := [1 # 100; - (1 # 100)].
Definition burst : AudioFrame := [1; - 1].

End TwoSample.


(** What is fixed at construction and read by the spectral stage. *)
Definition config (self : AdvancedAudioProcessor) : Q * Z * Q * Q * list nat :=
  (samplerate self, blocksize self, freq_min self, freq_max self, freq_band_indices self).

(** ** Reasoning about methods *)

(** A method keeps a property of the object, also when it raises. *)
Definition preserves {A : Type} (P : AdvancedAudioProcessor -> Prop) (m : M A) : Prop :=
  forall self, P self -> P (snd (m self)).

(** A method does not look at what [f] changes: running it after [f]
    gives the same result, and the same object up to [f]. *)
Definition commutes {A : Type} (f : AdvancedAudioProcessor -> AdvancedAudioProcessor)
           (m : M A) : Prop :=
  forall self, m (f self) = (fst (m self), f (snd (m self))).

(** A method started under [P] ends under [Q], also when it raises. *)
Definition hoare {A : Type} (P : AdvancedAudioProcessor -> Prop) (m : M A)
           (Q : AdvancedAudioProcessor -> Prop) : Prop :=
  forall self, P self -> Q (snd (m self)).

(** ** Diagnostics *)



(** ** The simplified processor *)

(** [a[mask]] with a boolean mask: the entries at which the mask is set;
    the mask must be as long as the array. *)
Definition np_bool_index (a : list Q) (mask : list bool) : res (list Q) :=
  if Nat.eqb (length a) (length mask)
  then Ok (map fst (filter snd (combine a mask)))
  else Raise IndexError.

Module Simplified.

Record SimplifiedAudioProcessor : Type := mkSimplified {
  samplerate : Q;
  blocksize : Z;
  loud : bool;
  freq_band_mask : list bool;
  history : list bool
}.

(** [__init__(samplerate, blocksize)]. *)
Definition __init__ (samplerate : Q) (blocksize : Z) : res SimplifiedAudioProcessor :=
  res_bind (py_div 1 samplerate) (fun d =>
  res_bind (Np.rfftfreq blocksize d) (fun freqs =>
  Ok {| samplerate := samplerate;
        blocksize := blocksize;
        loud := false;
        freq_band_mask := map (fun f => Qle_bool 500 f && Qle_bool f 4000) freqs;
        history := [] |})).

(** The raw decision of [_callback] on a frame: the share of the spectral
    energy that falls in the band, compared with 0.3.  The transform of an
    empty frame raises [ValueError]. *)
Definition raw_decision {numpy : Numpy} (self : SimplifiedAudioProcessor)
           (frame : AudioFrame) : res bool :=
  match frame with
  | [] => Raise ValueError
  | _ =>
      let magnitude := np_rfft_abs frame in
      res_bind (np_bool_index magnitude (freq_band_mask self)) (fun band =>
      let band_energy := Np.sum (Np.square band) in
      let total_energy := Np.sum (Np.square magnitude) in
      if Qeq_bool total_energy 0 then Ok false
      else res_bind (np_div band_energy total_energy) (fun ratio =>
           Ok (Qltb 0.3 ratio)))
  end.

(** [_callback(indata, frames, time, status)]: a frame delivered with a
    status flag is dropped; otherwise the decision joins a history of
    three and the flag is up when at least two of them are true. *)
Definition _callback {numpy : Numpy} (indata : AudioFrame) (status : bool)
           (self : SimplifiedAudioProcessor) : res unit * SimplifiedAudioProcessor :=
  if status then (Ok tt, self)
  else
    match raw_decision self indata with
    | Raise e => (Raise e, self)
    | Ok is_loud =>
        let h := deque_append 3 (history self) is_loud in
        (Ok tt,
         {| samplerate := samplerate self;
            blocksize := blocksize self;
            loud := (2 <=? py_sum_bool h)%Z;
            freq_band_mask := freq_band_mask self;
            history := h |})
    end.

(** [is_loud()]. *)
Definition is_loud (self : SimplifiedAudioProcessor) : bool := loud self.

(** The processor over a stream of frames and their status flags. *)
Definition feed {numpy : Numpy} (self : SimplifiedAudioProcessor)
           (stream : list (AudioFrame * bool)) : SimplifiedAudioProcessor :=
  fold_left (fun s p => snd (_callback (fst p) (snd p) s)) stream self.

(** A frame whose spectrum has one entry per mask position. *)
Definition well_sized {numpy : Numpy} (self : SimplifiedAudioProcessor)
           (frame : AudioFrame) : Prop :=
  frame <> [] /\ length (np_rfft_abs frame) = length (freq_band_mask self).

End Simplified.

(** The last [n] entries of a list. *)
Definition lastn {A : Type} (n : nat) (l : list A) : list A :=
  skipn (length l - n) l.

(** ** The caller: one tick of the game

    [NoisyBird.play] polls [is_loud()] once per display tick, flaps the
    bird when the flag is up and then updates it.  The rotation of the
    sprite at the end of [Bird.update] is rendering and is left out. *)
Module Game.

Record Bird : Type := mkBird {
  x : Z;
  y : Q;
  vel : Q;
  gravity : Q;
  lift : Q;
  max_fall : Q;
  angle : Q;
  target_angle : Q;
  w : Z;
  h : Z;
  trail : list (Z * Q)
}.

(** [Bird.flap()]. *)
Definition flap (b : Bird) : Bird :=
  mkBird (x b) (y b) (lift b) (gravity b) (lift b) (max_fall b)
    (angle b) 60 (w b) (h b) (trail b).

(** [Bird.update()]. *)
Definition update (b : Bird) : Bird :=
  let vel := vel b + gravity b in
  let vel := py_min vel (max_fall b) in
  let y := y b + vel in
  let target_angle :=
    if Qltb vel (-2) then 60
    else if Qltb vel 0 then 30
    else if Qltb 2 vel then -60
    else -30 in
  let angle_diff := target_angle - angle b in
  let angle := angle b + angle_diff * 0.2 in
  let angle := py_max (-60) (py_min 60 angle) in
  let y' := if Qltb y 0 then 0 else y in
  let vel' := if Qltb y 0 then 0 else vel in
  let trail := trail b ++ [((x b + w b / 2)%Z, y' + inject_Z (h b / 2))] in
  let trail := if (5 <? length trail)%nat then tl trail else trail in
  mkBird (x b) y' vel' (gravity b) (lift b) (max_fall b)
    angle target_angle (w b) (h b) trail.

(** The playing branch of the loop, as far as the bird is concerned:
    [if self.audio_processor.is_loud(): self.bird.flap()] and then
    [self.bird.update()]. *)
Definition tick (is_loud : bool) (b : Bird) : Bird :=
  update (if is_loud then flap b else b).

(** [Bird.hit_ground()], with [HEIGHT = 600]. *)
Definition hit_ground (b : Bird) : bool :=
  Qle_bool (600 - 5) (y b + inject_Z (h b)).

End Game.

(** The simplified processor at 4 kHz with blocks of two samples, and a
    frame whose energy sits in the bin at 0 Hz, outside the band. *)
Definition simplified_two_sample : Simplified.SimplifiedAudioProcessor :=
  Simplified.mkSimplified 4000 2 false
    (map (fun f => Qle_bool 500 f && Qle_bool f 4000) [0; 2000]) [].

Definition rumble : AudioFrame := [1; 1].

(** * Properties *)

(** ** Comparisons, deques and sums *)

Lemma Qltb_iff (x y : Q) : Qltb x y = true <-> x < y.
Proof.
  unfold Qltb. rewrite negb_true_iff.
  split; intro H.
  - apply Qnot_le_lt. intro Hle. apply Qle_bool_iff in Hle. congruence.
  - destruct (Qle_bool y x) eqn:E; [|reflexivity].
    apply Qle_bool_iff in E. exfalso. exact (Qlt_not_le _ _ H E).
Qed.

Lemma Qltb_false_iff (x y : Q) : Qltb x y = false <-> y <= x.
Proof.
  unfold Qltb. rewrite negb_false_iff. apply Qle_bool_iff.
Qed.

Lemma Qltb_reflect (x y : Q) : reflect (x < y) (Qltb x y).
Proof.
  apply iff_reflect. symmetry. apply Qltb_iff.
Qed.

Lemma deque_append_length {A : Type} (k : nat) (d : list A) (x : A) :
  (length (deque_append k d x) <= k)%nat.
Proof.
  unfold deque_append. rewrite length_skipn. lia.
Qed.



Lemma last_opt_snoc {A : Type} (d : list A) (x : A) : last_opt (d ++ [x]) = Some x.
Proof.
  unfold last_opt. rewrite rev_app_distr. reflexivity.
Qed.

Lemma skipn_snoc_split {A : Type} (n : nat) (d : list A) (x : A) :
  (n <= length d)%nat -> skipn n (d ++ [x]) = skipn n d ++ [x].
Proof.
  revert d. induction n as [|n IH]; intros d H; [reflexivity|].
  destruct d as [|a d]; [simpl in H; lia|].
  simpl. apply IH. simpl in H. lia.
Qed.

Lemma deque_append_snoc {A : Type} (k : nat) (d : list A) (x : A) :
  (0 < k)%nat -> exists d', deque_append k d x = d' ++ [x].
Proof.
  intro Hk. unfold deque_append. rewrite length_app. simpl.
  exists (skipn (length d + 1 - k) d). apply skipn_snoc_split. lia.
Qed.

Lemma last_opt_deque_append {A : Type} (k : nat) (d : list A) (x : A) :
  (0 < k)%nat -> last_opt (deque_append k d x) = Some x.
Proof.
  intro Hk. destruct (deque_append_snoc k d x Hk) as [d' ->]. apply last_opt_snoc.
Qed.


(** ** The Decision Engine *)

Lemma make_decision_value (self : AdvancedAudioProcessor)
      (rms noise_floor band_ratio centroid onset_strength : Q) :
  _make_decision rms noise_floor band_ratio centroid onset_strength self =
  (Ok (let r := Qltb (noise_floor * 1.5) rms in
       let f := Qltb 0.35 band_ratio in
       let c := Qltb 800 centroid && Qltb centroid 5000 in
       let o := Qltb (onset_threshold self) onset_strength in
       (o && f) || (r && f && c) || (r && f && o) || (r && c && o) || (f && c && o)),
   self).
Proof.
  unfold _make_decision, bind, attr, ret, py_sum_bool. cbn [fold_right].
  destruct (Qltb (noise_floor * 1.5) rms), (Qltb 0.35 band_ratio),
    (Qltb 800 centroid), (Qltb centroid 5000),
    (Qltb (onset_threshold self) onset_strength); reflexivity.
Qed.


(** ** The Debouncer *)

Lemma debounce_value (self : AdvancedAudioProcessor) (d : bool) :
  debounce d self =
  (Ok tt,
   let c' := if d then (loud_counter self + 1)%Z else Z.max 0 (loud_counter self - 1) in
   set_loud (loud_threshold self <=? c')%Z (set_loud_counter c' self)).
Proof.
  unfold debounce, bind, attr, assign. destruct d; reflexivity.
Qed.

Lemma init_debounce_state (sr : Q) (bs : Z) (sens : Q) :
  let self := snd (__init__ sr bs sens) in
  loud_counter self = 0%Z /\ loud self = false /\ loud_threshold self = 2%Z.
Proof.
  unfold __init__, _setup_frequency_bands, bind, attr, assign, lift.
  cbn [samplerate blocksize freq_min freq_max].
  destruct (py_div 1 sr) as [d|e]; [|repeat split].
  destruct (Np.rfftfreq bs d) as [freqs|e]; repeat split.
Qed.

(** C2.  From a counter [c >= 0], one debounce step on the raw decision
    [d] leaves the counter at [c + 1] when [d] is true and at
    [max(0, c - 1)] when it is false, and publishes loud exactly when the
    new counter is at least 2; nothing else changes. *)
Theorem debounce_step (self : AdvancedAudioProcessor) (d : bool) (c : Z) :
  loud_counter self = c ->
  (0 <= c)%Z ->
  loud_threshold self = 2%Z ->
  let c' := if d then (c + 1)%Z else Z.max 0 (c - 1) in
  let self' := snd (debounce d self) in
  debounce d self = (Ok tt, set_loud (2 <=? c')%Z (set_loud_counter c' self)) /\
  loud_counter self' = c' /\
  (loud self' = true <-> (2 <= c')%Z) /\
  (loud self' = false <-> (c' < 2)%Z) /\
  is_loud self' = (Ok (2 <=? c')%Z, self').
Proof.
  intros Hc Hpos Ht. cbv zeta. rewrite debounce_value. cbv zeta.
  rewrite Hc, Ht. cbn [snd set_loud set_loud_counter loud loud_counter].
  unfold is_loud, attr. cbn [loud].
  repeat split; try (apply Z.leb_le); try (apply Z.leb_gt);
    try (intro H; apply Z.leb_le in H; exact H);
    try (intro H; apply Z.leb_gt in H; exact H); assumption.
Qed.

Lemma debounce_step_witness :
  debounce true TwoSample.processor =
  (Ok tt, set_loud false (set_loud_counter 1 TwoSample.processor)).
Proof.
  exact (proj1 (debounce_step TwoSample.processor true 0
                  eq_refl (Z.le_refl 0) eq_refl)).
Defined.

(** C3 as stated fails: on a processor constructed with the default
    arguments, the decisions true, true, false, false do not give the
    flags false, true, true, false; the third flag is false, since the
    counter is back at 1, below the threshold 2. *)
Lemma debounce_trace_not_as_documented :
  let self := snd (__init__ 44100 2048 0.5) in
  loud_counter self = 0%Z /\
  loud self = false /\
  loud_threshold self = 2%Z /\
  map fst (debounce_trace self [true; true; false; false]) = [1%Z; 2%Z; 1%Z; 0%Z] /\
  map snd (debounce_trace self [true; true; false; false]) <> [false; true; true; false] /\
  nth 2 (map snd (debounce_trace self [true; true; false; false])) true = false.
Proof.
  vm_compute. repeat split. intro H. discriminate H.
Qed.

(** C3, amended.  A freshly constructed processor has counter 0 and is not
    loud, and the raw decisions true, true, false, false drive its
    debouncer through the counters 1, 2, 1, 0 and the flags false, true,
    false, false: the flag is up only while the counter is at least 2. *)
Theorem debounce_hysteresis_trace (sr : Q) (bs : Z) (sens : Q) :
  let self := snd (__init__ sr bs sens) in
  loud_counter self = 0%Z /\
  loud self = false /\
  loud_threshold self = 2%Z /\
  debounce_trace self [true; true; false; false] =
    [(1%Z, false); (2%Z, true); (1%Z, false); (0%Z, false)] /\
  map snd (debounce_trace self [true; true; false; false]) = [false; true; false; false] /\
  map fst (debounce_trace self [true; true; false; false]) = [1%Z; 2%Z; 1%Z; 0%Z].
Proof.
  cbv zeta.
  destruct (init_debounce_state sr bs sens) as (Hc & Hl & Ht).
  assert (Htrace :
    debounce_trace (snd (__init__ sr bs sens)) [true; true; false; false] =
    [(1%Z, false); (2%Z, true); (1%Z, false); (0%Z, false)]).
  { generalize dependent (snd (__init__ sr bs sens)). intros self Hc Hl Ht.
    unfold debounce_trace. rewrite !debounce_value. cbv zeta.
    cbn [snd set_loud set_loud_counter loud loud_counter loud_threshold].
    rewrite Hc, Ht. reflexivity. }
  rewrite Htrace. repeat split; assumption.
Qed.

(** ** Methods, one statement at a time *)

Section Hoare.

Context {A B : Type}.
Variable P : AdvancedAudioProcessor -> Prop.

Lemma preserves_ret (a : A) : preserves P (ret a).
Proof. intros self H. exact H. Qed.

Lemma preserves_attr (f : AdvancedAudioProcessor -> A) : preserves P (attr f).
Proof. intros self H. exact H. Qed.

Lemma preserves_lift (r : res A) : preserves P (lift r).
Proof. intros self H. exact H. Qed.

Lemma preserves_assign (f : AdvancedAudioProcessor -> AdvancedAudioProcessor) :
  (forall self, P self -> P (f self)) -> preserves P (assign f).
Proof. intros Hf self H. apply Hf, H. Qed.

Lemma preserves_bind (m : M A) (k : A -> M B) :
  preserves P m -> (forall a, preserves P (k a)) -> preserves P (bind m k).
Proof.
  intros Hm Hk self H. unfold bind.
  specialize (Hm self H).
  destruct (m self) as [[a|e] self']; cbn [snd] in *.
  - apply Hk, Hm.
  - exact Hm.
Qed.

End Hoare.

Section Frame.

Context {A B : Type}.
Variable f : AdvancedAudioProcessor -> AdvancedAudioProcessor.

Lemma commutes_ret (a : A) : commutes f (ret a).
Proof. intro self. reflexivity. Qed.

Lemma commutes_lift (r : res A) : commutes f (lift r).
Proof. intro self. reflexivity. Qed.

Lemma commutes_attr (g : AdvancedAudioProcessor -> A) :
  (forall self, g (f self) = g self) -> commutes f (attr g).
Proof. intros Hg self. unfold attr. cbn [fst snd]. rewrite Hg. reflexivity. Qed.

Lemma commutes_assign (g : AdvancedAudioProcessor -> AdvancedAudioProcessor) :
  (forall self, g (f self) = f (g self)) -> commutes f (assign g).
Proof. intros Hg self. unfold assign. cbn [fst snd]. rewrite Hg. reflexivity. Qed.

Lemma commutes_bind (m : M A) (k : A -> M B) :
  commutes f m -> (forall a, commutes f (k a)) -> commutes f (bind m k).
Proof.
  intros Hm Hk self. unfold bind. rewrite Hm.
  destruct (m self) as [[a|e] self']; cbn [fst snd].
  - apply Hk.
  - reflexivity.
Qed.

End Frame.

Create HintDb methods.
#[local] Hint Resolve preserves_ret preserves_attr preserves_lift preserves_bind : methods.
#[local] Hint Resolve commutes_ret commutes_lift commutes_bind : methods.

Lemma audio_callback_unfold {numpy : Numpy} (indata : AudioFrame) (self : AdvancedAudioProcessor) :
  _audio_callback indata self =
  _process_audio (set_audio_buffer (deque_append 4 (audio_buffer self) indata) self).
Proof. reflexivity. Qed.

Lemma percentile_nonempty (a : list Q) (q : Q) :
  a <> [] -> exists v, Np.percentile a q = Ok v.
Proof.
  intro H. destruct a as [|x a]; [congruence|]. eexists. reflexivity.
Qed.

Lemma deque_append_nonempty {A : Type} (k : nat) (d : list A) (x : A) :
  (0 < k)%nat -> deque_append k d x <> [].
Proof.
  intros Hk H. destruct (deque_append_snoc k d x Hk) as [d' E].
  rewrite E in H. destruct d'; discriminate H.
Qed.

Lemma mean_nonempty (x : list Q) :
  x <> [] -> Np.mean x = Ok (Np.sum x / inject_Z (Z.of_nat (length x))).
Proof.
  intro H. destruct x; [congruence | reflexivity].
Qed.

Lemma square_nonempty (x : list Q) : x <> [] -> Np.square x <> [].
Proof.
  intro H. destruct x; [congruence | discriminate].
Qed.

(** The RMS of a frame, as [_process_audio] computes it. *)
Lemma observe_noise_floor_value {numpy : Numpy} (frame : AudioFrame)
      (self : AdvancedAudioProcessor) :
  frame <> [] ->
  exists m nf,
    Np.mean (Np.square frame) = Ok m /\
    Np.percentile (deque_append 100 (noise_floor_history self) (np_sqrt m)) 10 = Ok nf /\
    observe_noise_floor frame self =
    (Ok (np_sqrt m, nf),
     set_noise_floor_history (deque_append 100 (noise_floor_history self) (np_sqrt m)) self).
Proof.
  intro Hne.
  pose proof (mean_nonempty _ (square_nonempty _ Hne)) as Hm.
  eexists. 
  destruct (percentile_nonempty
              (deque_append 100 (noise_floor_history self)
                 (np_sqrt (Np.sum (Np.square frame) /
                           inject_Z (Z.of_nat (length (Np.square frame)))))) 10)
    as [nf Hnf].
  { apply deque_append_nonempty. lia. }
  exists nf. split; [exact Hm|]. split; [exact Hnf|].
  unfold observe_noise_floor, bind, lift, attr, assign, ret.
  rewrite Hm. cbn [noise_floor_history set_noise_floor_history].
  rewrite Hnf. reflexivity.
Qed.

Lemma bind_ok {A B : Type} (m : M A) (k : A -> M B)
      (self self' : AdvancedAudioProcessor) (a : A) :
  m self = (Ok a, self') -> bind m k self = k a self'.
Proof. intro H. unfold bind. rewrite H. reflexivity. Qed.

Lemma bind_raise {A B : Type} (m : M A) (k : A -> M B)
      (self self' : AdvancedAudioProcessor) (e : exn) :
  m self = (Raise e, self') -> bind m k self = (Raise e, self').
Proof. intro H. unfold bind. rewrite H. reflexivity. Qed.

Lemma bind_attr {A B : Type} (f : AdvancedAudioProcessor -> A) (k : A -> M B)
      (self : AdvancedAudioProcessor) :
  bind (attr f) k self = k (f self) self.
Proof. reflexivity. Qed.

Lemma bind_assign {B : Type} (g : AdvancedAudioProcessor -> AdvancedAudioProcessor)
      (k : unit -> M B) (self : AdvancedAudioProcessor) :
  bind (assign g) k self = k tt (g self).
Proof. reflexivity. Qed.

Lemma bind_lift_ok {A B : Type} (a : A) (k : A -> M B) (self : AdvancedAudioProcessor) :
  bind (lift (Ok a)) k self = k a self.
Proof. reflexivity. Qed.

Lemma reset_loud_value (self : AdvancedAudioProcessor) :
  reset_loud self = (Ok tt, set_loud false (set_loud_counter 0 self)).
Proof. reflexivity. Qed.

(** ** The noise gate *)

Section NoiseGate.

Context {numpy : Numpy}.

Lemma process_audio_gated (self self1 : AdvancedAudioProcessor)
      (frame : AudioFrame) (rms nf : Q) :
  last_opt (audio_buffer self) = Some frame ->
  observe_noise_floor frame self = (Ok (rms, nf), self1) ->
  Qltb rms (nf * 1.5) = true ->
  _process_audio self = (Ok tt, set_loud false (set_loud_counter 0 self1)).
Proof.
  intros Hlast Hobs Hgate. unfold _process_audio.
  rewrite bind_attr, Hlast.
  rewrite (bind_ok _ _ _ _ _ Hobs). cbn [fst snd].
  rewrite Hgate. apply reset_loud_value.
Qed.

Lemma callback_gated (self : AdvancedAudioProcessor) (frame : AudioFrame) (m nf : Q) :
  Np.mean (Np.square frame) = Ok m ->
  Np.percentile (deque_append 100 (noise_floor_history self) (np_sqrt m)) 10 = Ok nf ->
  np_sqrt m < nf * 1.5 ->
  _audio_callback frame self =
  (Ok tt,
   set_loud false
     (set_loud_counter 0
        (set_noise_floor_history (deque_append 100 (noise_floor_history self) (np_sqrt m))
           (set_audio_buffer (deque_append 4 (audio_buffer self) frame) self)))).
Proof.
  intros Hm Hnf Hlt. rewrite audio_callback_unfold.
  apply process_audio_gated with (frame := frame) (rms := np_sqrt m) (nf := nf).
  - cbn [audio_buffer set_audio_buffer]. apply last_opt_deque_append. lia.
  - unfold observe_noise_floor, bind, lift, attr, assign, ret.
    rewrite Hm. cbn [noise_floor_history set_noise_floor_history set_audio_buffer].
    rewrite Hnf. reflexivity.
  - apply Qltb_iff, Hlt.
Qed.

End NoiseGate.




(** Walks through a method statement by statement; what remains are the
    assignments, each to be checked against the property at hand. *)
Ltac walk_method :=
  repeat match goal with
         | |- preserves _ (bind _ _) => apply preserves_bind; [|intro]
         | |- preserves _ (ret _) => apply preserves_ret
         | |- preserves _ (attr _) => apply preserves_attr
         | |- preserves _ (lift _) => apply preserves_lift
         | |- preserves _ (match ?x with _ => _ end) => destruct x
         | |- preserves _ _ => progress cbv zeta
         end.

Ltac unfold_methods :=
  unfold _audio_callback, _process_audio, observe_noise_floor,
    _calculate_spectral_centroid, _calculate_onset_strength, _make_decision,
    set_sensitivity.

(** ** The Noise Floor Estimator *)

Lemma insert_permutation (x : Q) (l : list Q) : Permutation (x :: l) (Np.insert x l).
Proof.
  induction l as [|y l IH]; cbn [Np.insert]; [reflexivity|].
  destruct (Qle_bool x y); [reflexivity|].
  rewrite perm_swap. apply perm_skip, IH.
Qed.

Lemma sort_permutation (l : list Q) : Permutation l (Np.sort l).
Proof.
  induction l as [|x l IH]; cbn [Np.sort fold_right]; [reflexivity|].
  change (fold_right Np.insert [] l) with (Np.sort l).
  rewrite <- insert_permutation. apply perm_skip, IH.
Qed.

Lemma insert_sorted (x : Q) (l : list Q) :
  Sorted Qle l -> Sorted Qle (Np.insert x l).
Proof.
  induction 1 as [|y l Hl IH Hy]; cbn [Np.insert].
  - repeat constructor.
  - destruct (Qle_bool x y) eqn:E.
    + apply Qle_bool_iff in E. repeat constructor; assumption.
    + assert (Hyx : y <= x).
      { destruct (Qlt_le_dec y x) as [H|H]; [apply Qlt_le_weak, H|].
        apply Qle_bool_iff in H. congruence. }
      constructor; [exact IH|].
      destruct l as [|z l]; cbn [Np.insert]; [repeat constructor; exact Hyx|].
      destruct (Qle_bool x z); constructor; [exact Hyx|].
      inversion Hy; assumption.
Qed.

Lemma sort_sorted (l : list Q) : Sorted Qle (Np.sort l).
Proof.
  induction l as [|x l IH]; cbn [Np.sort fold_right]; [constructor|].
  apply insert_sorted, IH.
Qed.






Lemma run_invariant {numpy : Numpy} (P : AdvancedAudioProcessor -> Prop) :
  (forall indata, preserves P (_audio_callback indata)) ->
  (forall s, preserves P (set_sensitivity s)) ->
  forall evs self, P self -> P (run self evs).
Proof.
  intros Hf Hs evs. induction evs as [|ev evs IH]; intros self H; [exact H|].
  cbn [run fold_left]. apply IH. destruct ev as [indata|s]; cbn [step].
  - apply Hf, H.
  - apply Hs, H.
Qed.




(** The design document's example: ten ascending values from 0.001 to
    0.01 have their 10th percentile between the two smallest. *)
Example percentile_of_ten :
  exists v, Np.percentile
              [0.001; 0.002; 0.003; 0.004; 0.005; 0.006; 0.007; 0.008; 0.009; 0.01] 10
            = Ok v /\ v == 0.0019.
Proof.
  eexists. split; [reflexivity|]. vm_compute. reflexivity.
Qed.

(** ** The Onset Detector *)

Lemma sum_square_nonneg (x : list Q) : 0 <= Np.sum (Np.square x).
Proof.
  induction x as [|a x IH]; cbn [Np.square Np.sum map fold_right].
  - apply Qle_refl.
  - change (map (fun v => v * v) x) with (Np.square x).
    change (fold_right Qplus 0 (Np.square x)) with (Np.sum (Np.square x)).
    assert (Ha : 0 <= a * a) by nra.
    lra.
Qed.

Lemma energy_nonneg (frame : AudioFrame) : 0 <= energy frame.
Proof. apply sum_square_nonneg. Qed.

Lemma second_last_length {A : Type} (d : list A) (x : A) :
  second_last_opt d = Some x -> (2 <= length d)%nat.
Proof.
  unfold second_last_opt. intro H.
  assert (Hlt : (1 < length (rev d))%nat).
  { apply nth_error_Some. rewrite H. discriminate. }
  rewrite length_rev in Hlt. lia.
Qed.

Lemma onset_no_previous (self : AdvancedAudioProcessor) (frame : AudioFrame) :
  (length (audio_buffer self) < 2)%nat ->
  _calculate_onset_strength frame self = (Ok 0, self).
Proof.
  intro H. unfold _calculate_onset_strength. rewrite bind_attr.
  apply Nat.ltb_lt in H. rewrite H. reflexivity.
Qed.

Lemma onset_previous_silent (self : AdvancedAudioProcessor) (frame prev : AudioFrame) :
  second_last_opt (audio_buffer self) = Some prev ->
  energy prev == 0 ->
  _calculate_onset_strength frame self = (Ok 0, self).
Proof.
  intros Hprev Hz. unfold _calculate_onset_strength. rewrite bind_attr.
  pose proof (second_last_length _ _ Hprev) as Hlen.
  destruct (length (audio_buffer self) <? 2)%nat eqn:E1; [reflexivity|].
  destruct (1 <? length (audio_buffer self))%nat eqn:E2; [|reflexivity].
  rewrite Hprev. cbv zeta.
  apply Qeq_bool_iff in Hz. unfold energy in Hz. rewrite Hz. reflexivity.
Qed.

Lemma onset_previous_audible (self : AdvancedAudioProcessor) (frame prev : AudioFrame) :
  second_last_opt (audio_buffer self) = Some prev ->
  ~ energy prev == 0 ->
  _calculate_onset_strength frame self =
  (Ok (energy frame / (energy prev + 1e-10)), self).
Proof.
  intros Hprev Hnz. unfold _calculate_onset_strength. rewrite bind_attr.
  pose proof (second_last_length _ _ Hprev) as Hlen.
  destruct (length (audio_buffer self) <? 2)%nat eqn:E1.
  { apply Nat.ltb_lt in E1. lia. }
  destruct (1 <? length (audio_buffer self))%nat eqn:E2.
  2:{ apply Nat.ltb_ge in E2. lia. }
  rewrite Hprev. cbv zeta. fold (energy prev). fold (energy frame).
  destruct (Qeq_bool (energy prev) 0) eqn:E3.
  { apply Qeq_bool_iff in E3. contradiction. }
  unfold np_div.
  destruct (Qeq_bool (energy prev + 1e-10) 0) eqn:E4.
  { apply Qeq_bool_iff in E4. pose proof (energy_nonneg prev).
    change 1e-10 with (1 # 10000000000) in E4. lra. }
  reflexivity.
Qed.





(** ** Sensitivity *)

Lemma set_sensitivity_value (self : AdvancedAudioProcessor) (s : Q) :
  set_sensitivity s self =
  (Ok tt,
   set_onset_threshold (2 - clamp01 s * 0.5)
     (set_freq_threshold (0.020 - clamp01 s * 0.008)
        (set_sensitivity_attr (clamp01 s) self))).
Proof. reflexivity. Qed.




(** ** The debounce invariant *)

Lemma debounce_inv_reset : preserves debounce_inv reset_loud.
Proof.
  intros self (Hc & Hl & Ht). rewrite reset_loud_value.
  unfold debounce_inv. cbn [snd loud_counter loud loud_threshold set_loud set_loud_counter].
  rewrite Ht. repeat split. lia.
Qed.

Lemma debounce_inv_debounce (d : bool) : preserves debounce_inv (debounce d).
Proof.
  intros self (Hc & Hl & Ht). rewrite debounce_value. cbv zeta.
  unfold debounce_inv. cbn [snd loud_counter loud loud_threshold set_loud set_loud_counter].
  repeat split; [destruct d; lia | exact Ht].
Qed.

Ltac keep_debounce_inv :=
  first [ apply debounce_inv_reset
        | apply debounce_inv_debounce
        | apply preserves_assign; intros ? H; exact H ].

Lemma debounce_inv_process_audio {numpy : Numpy} : preserves debounce_inv _process_audio.
Proof.
  unfold_methods. walk_method; keep_debounce_inv.
Qed.

Lemma debounce_inv_callback {numpy : Numpy} (indata : AudioFrame) :
  preserves debounce_inv (_audio_callback indata).
Proof.
  unfold _audio_callback. walk_method;
    [keep_debounce_inv | apply debounce_inv_process_audio].
Qed.

Lemma debounce_inv_set_sensitivity (s : Q) : preserves debounce_inv (set_sensitivity s).
Proof.
  unfold_methods. walk_method; keep_debounce_inv.
Qed.

Lemma debounce_inv_init (sr : Q) (bs : Z) (sens : Q) :
  debounce_inv (snd (__init__ sr bs sens)).
Proof.
  destruct (init_debounce_state sr bs sens) as (Hc & Hl & Ht).
  unfold debounce_inv. rewrite Hc, Hl, Ht. repeat split. lia.
Qed.

(** C9.  The debounce state is coherent at construction and stays so
    through every invocation: the counter is non-negative, the threshold
    is 2, and the flag is up exactly when the counter has reached the
    threshold.  This holds after the noise-gate return, after the
    zero-energy return, after a full pass, after an invocation that
    raises, and after a change of sensitivity. *)
Theorem debounce_state_invariant {numpy : Numpy} :
  (forall sr bs sens, debounce_inv (snd (__init__ sr bs sens))) /\
  (forall self, debounce_inv self -> debounce_inv (snd (reset_loud self))) /\
  (forall self, debounce_inv self -> debounce_inv (snd (_process_audio self))) /\
  (forall self indata, debounce_inv self -> debounce_inv (snd (_audio_callback indata self))) /\
  (forall sr bs sens evs,
      let self := run (snd (__init__ sr bs sens)) evs in
      (0 <= loud_counter self)%Z /\
      loud_threshold self = 2%Z /\
      loud self = (2 <=? loud_counter self)%Z).
Proof.
  split; [exact debounce_inv_init|].
  split; [exact debounce_inv_reset|].
  split; [exact debounce_inv_process_audio|].
  split; [intros self indata; apply debounce_inv_callback|].
  intros sr bs sens evs. cbv zeta.
  assert (H : debounce_inv (run (snd (__init__ sr bs sens)) evs)).
  { apply (run_invariant debounce_inv).
    - intro indata. apply debounce_inv_callback.
    - apply debounce_inv_set_sensitivity.
    - apply debounce_inv_init. }
  destruct H as (Hc & Hl & Ht). rewrite Ht in Hl. auto.
Qed.

Lemma debounce_state_invariant_witness :
  debounce_inv
    (snd (@_audio_callback TwoSample.numpy TwoSample.burst
            (@feed TwoSample.numpy TwoSample.processor [TwoSample.quiet]))).
Proof.
  apply (proj1 (proj2 (proj2 (proj2 (@debounce_state_invariant TwoSample.numpy))))).
  unfold debounce_inv. vm_compute. repeat split. intro H. discriminate H.
Defined.

(** ** What the classifier does not read *)

Ltac walk_commutes :=
  repeat match goal with
         | |- commutes _ (bind _ _) => apply commutes_bind; [|intro]
         | |- commutes _ (ret _) => apply commutes_ret
         | |- commutes _ (lift _) => apply commutes_lift
         | |- commutes _ (attr _) => apply commutes_attr; intro; reflexivity
         | |- commutes _ (assign _) => apply commutes_assign; intro; reflexivity
         | |- commutes _ (match ?x with _ => _ end) => destruct x
         | |- commutes _ _ => progress cbv zeta
         end.

Lemma freq_threshold_commutes_decision (v rms nf br c o : Q) :
  commutes (set_freq_threshold v) (_make_decision rms nf br c o).
Proof.
  unfold _make_decision. walk_commutes.
Qed.

Lemma freq_threshold_commutes_callback {numpy : Numpy} (v : Q) (indata : AudioFrame) :
  commutes (set_freq_threshold v) (_audio_callback indata).
Proof.
  unfold_methods. unfold debounce, reset_loud. walk_commutes.
Qed.

Lemma sensitivity_commutes_callback {numpy : Numpy} (v : Q) (indata : AudioFrame) :
  commutes (set_sensitivity_attr v) (_audio_callback indata).
Proof.
  unfold_methods. unfold debounce, reset_loud. walk_commutes.
Qed.

Lemma feed_commutes {numpy : Numpy}
      (f : AdvancedAudioProcessor -> AdvancedAudioProcessor) :
  (forall indata, commutes f (_audio_callback indata)) ->
  forall frames self, feed (f self) frames = f (feed self frames).
Proof.
  intros Hf frames. induction frames as [|x frames IH]; intro self; [reflexivity|].
  unfold feed in *. cbn [fold_left]. rewrite (Hf x self). cbn [snd]. apply IH.
Qed.

(** C10.  Two processors that differ in [freq_threshold] only give the
    same decisions, raise the same exceptions and publish the same flag
    on every frame and every stream of frames, and stay equal up to that
    field.  [set_sensitivity] therefore reaches the classification through
    [onset_threshold] alone. *)
Theorem freq_threshold_is_never_read {numpy : Numpy}
        (self : AdvancedAudioProcessor) (v : Q) :
  (forall rms noiseFloor bandRatio centroid onset,
      _make_decision rms noiseFloor bandRatio centroid onset (set_freq_threshold v self) =
      (fst (_make_decision rms noiseFloor bandRatio centroid onset self),
       set_freq_threshold v self)) /\
  (forall indata,
      _audio_callback indata (set_freq_threshold v self) =
      (fst (_audio_callback indata self),
       set_freq_threshold v (snd (_audio_callback indata self)))) /\
  (forall frames,
      feed (set_freq_threshold v self) frames = set_freq_threshold v (feed self frames)) /\
  (forall frames,
      loud (feed (set_freq_threshold v self) frames) = loud (feed self frames) /\
      loud_counter (feed (set_freq_threshold v self) frames) = loud_counter (feed self frames)) /\
  (forall s frames,
      loud (feed (snd (set_sensitivity s self)) frames) =
      loud (feed (set_onset_threshold (2 - clamp01 s * 0.5) self) frames)).
Proof.
  split.
  { intros. rewrite freq_threshold_commutes_decision.
    rewrite make_decision_value. reflexivity. }
  split.
  { intro indata. apply freq_threshold_commutes_callback. }
  split.
  { intro frames. apply feed_commutes. intro. apply freq_threshold_commutes_callback. }
  split.
  { intro frames. rewrite feed_commutes.
    - split; reflexivity.
    - intro. apply freq_threshold_commutes_callback. }
  intros s frames. rewrite set_sensitivity_value. cbn [snd].
  change (set_onset_threshold (2 - clamp01 s * 0.5)
            (set_freq_threshold (0.020 - clamp01 s * 0.008)
               (set_sensitivity_attr (clamp01 s) self)))
    with (set_freq_threshold (0.020 - clamp01 s * 0.008)
            (set_sensitivity_attr (clamp01 s)
               (set_onset_threshold (2 - clamp01 s * 0.5) self))).
  rewrite feed_commutes by (intro; apply freq_threshold_commutes_callback).
  rewrite feed_commutes by (intro; apply sensitivity_commutes_callback).
  reflexivity.
Qed.

(** ** Frames without spectral energy *)

Lemma where_from_bound (mask : list bool) (i : nat) :
  Forall (fun j => (j < i + length mask)%nat) (Np.where_from i mask).
Proof.
  revert i. induction mask as [|b mask IH]; intro i; cbn [Np.where_from length].
  - constructor.
  - specialize (IH (S i)).
    assert (IH' : Forall (fun j => (j < i + S (length mask))%nat)
                         (Np.where_from (S i) mask)).
    { eapply Forall_impl; [|exact IH]. cbn beta. intros j Hj. lia. }
    destruct b; [constructor; [lia | exact IH'] | exact IH'].
Qed.

Lemma take_in_range (a : list Q) (idx : list nat) :
  Forall (fun j => (j < length a)%nat) idx -> exists vs, Np.take a idx = Ok vs.
Proof.
  induction 1 as [|j idx Hj _ IH]; cbn [Np.take].
  - eexists. reflexivity.
  - destruct (nth_error a j) as [v|] eqn:E.
    + destruct IH as [vs ->]. eexists. reflexivity.
    + apply nth_error_None in E. lia.
Qed.

Lemma rfftfreq_length (n : Z) (d : Q) (freqs : list Q) :
  Np.rfftfreq n d = Ok freqs -> length freqs = Z.to_nat (n / 2 + 1).
Proof.
  unfold Np.rfftfreq. destruct (Qeq_bool (inject_Z n * d) 0); [discriminate|].
  intro H. injection H as <-. rewrite length_map, length_seq. reflexivity.
Qed.

Lemma bins_of_block (n : nat) : Z.to_nat (Z.of_nat n / 2 + 1) = (n / 2 + 1)%nat.
Proof.
  change 2%Z with (Z.of_nat 2). rewrite <- Nat2Z.inj_div.
  change 1%Z with (Z.of_nat 1). rewrite <- Nat2Z.inj_add. apply Nat2Z.id.
Qed.

Lemma band_indices_in_range {numpy : Numpy}
      (self : AdvancedAudioProcessor) (frame : AudioFrame) :
  bands_ready self -> well_sized self frame ->
  exists band, Np.take (np_rfft_abs frame) (freq_band_indices self) = Ok band.
Proof.
  intros (d & freqs & _ & Hfreqs & Hidx) (Hne & Hlen & Hbins).
  apply take_in_range. rewrite Hidx. unfold Np.where_.
  eapply Forall_impl; [|apply where_from_bound].
  cbn beta. intros j Hj. rewrite length_map in Hj.
  rewrite (rfftfreq_length _ _ _ Hfreqs), <- Hlen, bins_of_block in Hj.
  rewrite Hbins. lia.
Qed.

Lemma sum_zero (x : list Q) : Forall (fun v => v == 0) x -> Np.sum x == 0.
Proof.
  induction 1 as [|v x Hv _ IH]; cbn [Np.sum fold_right]; [reflexivity|].
  change (fold_right Qplus 0 x) with (Np.sum x). rewrite Hv, IH. reflexivity.
Qed.

Lemma square_zero (x : list Q) :
  Forall (fun v => v == 0) x -> Forall (fun v => v == 0) (Np.square x).
Proof.
  induction 1 as [|v x Hv _ IH]; cbn [Np.square map]; constructor.
  - rewrite Hv. reflexivity.
  - exact IH.
Qed.

Lemma sum_square_zero (x : list Q) :
  Np.sum (Np.square x) == 0 -> Forall (fun v => v == 0) x.
Proof.
  induction x as [|a x IH]; intro H; [constructor|].
  cbn [Np.square Np.sum map fold_right] in H.
  change (map (fun v => v * v) x) with (Np.square x) in H.
  change (fold_right Qplus 0 (Np.square x)) with (Np.sum (Np.square x)) in H.
  pose proof (sum_square_nonneg x) as Hx.
  assert (Ha : 0 <= a * a) by nra.
  constructor.
  - assert (Hz : a * a == 0) by lra.
    destruct (Qmult_integral _ _ Hz); assumption.
  - apply IH. lra.
Qed.

Lemma centroid_of_silence {numpy : Numpy}
      (self : AdvancedAudioProcessor) (magnitude : list Q) :
  bands_ready self -> Np.sum (Np.square magnitude) == 0 ->
  _calculate_spectral_centroid magnitude self = (Ok 0, self).
Proof.
  intros (d & freqs & Hd & Hfreqs & _) Hz.
  unfold _calculate_spectral_centroid.
  rewrite bind_attr, Hd, bind_lift_ok, bind_attr, Hfreqs, bind_lift_ok.
  assert (Hs : Np.sum magnitude == 0) by (apply sum_zero, sum_square_zero, Hz).
  apply Qeq_bool_iff in Hs. rewrite Hs. reflexivity.
Qed.

Lemma callback_zero_energy {numpy : Numpy}
      (self : AdvancedAudioProcessor) (frame : AudioFrame) :
  bands_ready self -> zero_energy self frame ->
  exists m,
    Np.mean (Np.square frame) = Ok m /\
    _audio_callback frame self =
    (Ok tt,
     set_loud false
       (set_loud_counter 0
          (set_noise_floor_history (deque_append 100 (noise_floor_history self) (np_sqrt m))
             (set_audio_buffer (deque_append 4 (audio_buffer self) frame) self)))).
Proof.
  intros Hready (Hsized & Hz). pose proof Hsized as (Hne & Hlen & Hbins).
  set (self0 := set_audio_buffer (deque_append 4 (audio_buffer self) frame) self).
  destruct (observe_noise_floor_value frame self0 Hne) as (m & nf & Hm & Hnf & Hobs).
  exists m. split; [exact Hm|].
  rewrite audio_callback_unfold. fold self0.
  unfold _process_audio. rewrite bind_attr.
  replace (last_opt (audio_buffer self0)) with (Some frame)
    by (symmetry; apply last_opt_deque_append; lia).
  rewrite (bind_ok _ _ _ _ _ Hobs). cbn [fst snd].
  destruct (Qltb (np_sqrt m) (nf * 1.5)); [apply reset_loud_value|].
  cbv zeta. rewrite bind_attr.
  destruct (band_indices_in_range self frame Hready Hsized) as [band Hband].
  cbn [freq_band_indices set_noise_floor_history set_audio_buffer self0].
  rewrite Hband, bind_lift_ok.
  apply Qeq_bool_iff in Hz. rewrite Hz. apply reset_loud_value.
Qed.

Lemma config_callback {numpy : Numpy} (c : Q * Z * Q * Q * list nat) (indata : AudioFrame) :
  preserves (fun self => config self = c) (_audio_callback indata).
Proof.
  unfold_methods. unfold debounce, reset_loud. walk_method;
    apply preserves_assign; intros self H; exact H.
Qed.

Lemma feed_snoc {numpy : Numpy} (self : AdvancedAudioProcessor)
      (frames : list AudioFrame) (x : AudioFrame) :
  feed self (frames ++ [x]) = snd (_audio_callback x (feed self frames)).
Proof.
  unfold feed. rewrite fold_left_app. reflexivity.
Qed.

Lemma config_feed {numpy : Numpy} (self : AdvancedAudioProcessor) (frames : list AudioFrame) :
  config (feed self frames) = config self.
Proof.
  induction frames as [|x frames IH] using rev_ind; [reflexivity|].
  rewrite feed_snoc. apply (config_callback (config self) x). exact IH.
Qed.

Lemma bands_ready_config (self self' : AdvancedAudioProcessor) :
  config self' = config self -> bands_ready self -> bands_ready self'.
Proof.
  unfold config, bands_ready. intros H (d & freqs & Hd & Hf & Hi).
  injection H as Hsr Hbs Hlo Hhi Hidx.
  exists d, freqs. rewrite Hsr, Hbs, Hlo, Hhi, Hidx. auto.
Qed.

Lemma bands_ready_init (sr : Q) (bs : Z) (sens : Q) :
  fst (__init__ sr bs sens) = Ok tt -> bands_ready (snd (__init__ sr bs sens)).
Proof.
  unfold __init__, _setup_frequency_bands, bands_ready, bind, attr, assign, lift.
  cbn [samplerate blocksize freq_min freq_max].
  destruct (py_div 1 sr) as [d|e] eqn:Hd; [|discriminate].
  destruct (Np.rfftfreq bs d) as [freqs|e] eqn:Hf; [|discriminate].
  intros _. exists d, freqs.
  cbn [snd samplerate blocksize freq_min freq_max freq_band_indices freq_band_mask
       set_freq_band_mask set_freq_band_indices].
  auto.
Qed.

Lemma zero_energy_config {numpy : Numpy} (self self' : AdvancedAudioProcessor)
      (frame : AudioFrame) :
  config self' = config self -> zero_energy self frame -> zero_energy self' frame.
Proof.
  unfold config. intros H ((Hne & Hlen & Hbins) & Hz).
  injection H as _ Hbs _ _ _.
  repeat split; try assumption. rewrite Hbs. exact Hlen.
Qed.

Lemma silence_has_zero_energy {numpy : Numpy}
      (self : AdvancedAudioProcessor) (frame : AudioFrame) :
  rfft_zero_law numpy -> well_sized self frame ->
  Forall (fun x => x == 0) frame -> zero_energy self frame.
Proof.
  intros Hlaw Hsized Hzero. split; [exact Hsized|].
  apply sum_zero, square_zero, Hlaw, Hzero.
Qed.

(** C7 as stated fails.  The two-sample processor hears silence, a
    burst, and silence again.  The last frame has zero spectral energy
    and is processed without error, but no band ratio is computed for it
    and no centroid is recorded: the centroid history still ends with the
    burst's 2000 Hz, not with 0, and the onset history is untouched. *)
Lemma silent_frame_reports_no_features :
  let numpy := TwoSample.numpy in
  let before := feed TwoSample.processor [TwoSample.silence; TwoSample.burst] in
  let after := snd (_audio_callback TwoSample.silence before) in
  Np.sum (Np.square (np_rfft_abs TwoSample.silence)) == 0 /\
  (exists noiseFloor,
      fst (observe_noise_floor TwoSample.silence
             (set_audio_buffer (deque_append 4 (audio_buffer before) TwoSample.silence)
                before)) = Ok (0, noiseFloor) /\
      Qltb 0 (noiseFloor * 1.5) = false) /\
  fst (_audio_callback TwoSample.silence before) = Ok tt /\
  centroid_history before = [16000 # 8] /\
  centroid_history after = centroid_history before /\
  onset_history after = onset_history before /\
  loud_counter before = 1%Z /\
  loud_counter after = 0%Z /\
  last_opt (centroid_history after) <> Some 0.
Proof.
  cbv zeta.
  split; [vm_compute; reflexivity|].
  split; [exists (0 # 100); split; vm_compute; reflexivity|].
  do 6 (split; [vm_compute; reflexivity|]).
  vm_compute. intro H. discriminate H.
Qed.

(** C7, amended.  A frame of the configured size whose spectrum carries
    no energy, an all-zero frame in particular, is processed without
    exception and without division by zero.  The spectral centroid of
    its spectrum is 0; the invocation returns before a band ratio is
    computed and records neither centroid nor onset; it resets the counter
    to 0 and clears the flag at once, so that [is_loud()] is false after
    every frame of a run of such frames. *)
Theorem zero_energy_frame_resets {numpy : Numpy}
        (self : AdvancedAudioProcessor) (frame : AudioFrame) :
  bands_ready self ->
  zero_energy self frame ->
  let after := snd (_audio_callback frame self) in
  fst (_audio_callback frame self) = Ok tt /\
  _calculate_spectral_centroid (np_rfft_abs frame) self = (Ok 0, self) /\
  loud_counter after = 0%Z /\
  loud after = false /\
  is_loud after = (Ok false, after) /\
  centroid_history after = centroid_history self /\
  onset_history after = onset_history self /\
  (forall frames, frames <> [] -> Forall (zero_energy self) frames ->
                  loud (feed self frames) = false) /\
  (rfft_zero_law numpy ->
   forall silent, well_sized self silent -> Forall (fun x => x == 0) silent ->
                  zero_energy self silent).
Proof.
  intros Hready Hzero. cbv zeta.
  destruct (callback_zero_energy self frame Hready Hzero) as (m & _ & Hcb).
  rewrite Hcb. cbn [fst snd].
  split; [reflexivity|].
  split; [apply centroid_of_silence; [exact Hready | apply Hzero]|].
  do 5 (split; [reflexivity|]).
  split.
  - intros frames Hne Hall.
    destruct frames as [|x frames] using rev_ind; [congruence|].
    clear IHframes. rewrite feed_snoc.
    apply Forall_app in Hall. destruct Hall as [_ Hx].
    apply Forall_inv in Hx.
    pose proof (config_feed self frames) as Hcfg.
    destruct (callback_zero_energy (feed self frames) x
                (bands_ready_config _ _ Hcfg Hready)
                (zero_energy_config _ _ _ Hcfg Hx)) as (m' & _ & Hcb').
    rewrite Hcb'. reflexivity.
  - intros Hlaw silent. apply silence_has_zero_energy, Hlaw.
Qed.

Lemma zero_energy_frame_resets_witness :
  loud (snd (@_audio_callback TwoSample.numpy TwoSample.silence
               (@feed TwoSample.numpy TwoSample.processor
                  [TwoSample.quiet; TwoSample.burst; TwoSample.burst]))) = false.
Proof.
  refine (proj1 (proj2 (proj2 (proj2
            (@zero_energy_frame_resets TwoSample.numpy
               (@feed TwoSample.numpy TwoSample.processor
                  [TwoSample.quiet; TwoSample.burst; TwoSample.burst])
               TwoSample.silence _ _))))).
  - apply (bands_ready_config TwoSample.processor).
    + apply (@config_feed TwoSample.numpy).
    + apply bands_ready_init. vm_compute. reflexivity.
  - split; [split; [discriminate | split; vm_compute; reflexivity]
           | vm_compute; reflexivity].
Defined.

(** * Further properties of the processor *)

(** ** Construction *)










(** ** A full pass *)

Lemma np_div_ok (a b : Q) : ~ b == 0 -> np_div a b = Ok (a / b).
Proof.
  intro H. unfold np_div. destruct (Qeq_bool b 0) eqn:E; [|reflexivity].
  apply Qeq_bool_iff in E. contradiction.
Qed.

Lemma mul_same_length (a b : list Q) :
  length a = length b ->
  Np.mul a b = Ok (map (fun p => fst p * snd p) (combine a b)).
Proof.
  intro H. unfold Np.mul. rewrite H, Nat.eqb_refl. reflexivity.
Qed.

Lemma centroid_value (self : AdvancedAudioProcessor) (magnitude : list Q)
      (d : Q) (freqs : list Q) :
  py_div 1 (samplerate self) = Ok d ->
  Np.rfftfreq (blocksize self) d = Ok freqs ->
  length freqs = length magnitude ->
  ~ Np.sum magnitude == 0 ->
  _calculate_spectral_centroid magnitude self =
  (Ok (Np.sum (map (fun p => fst p * snd p) (combine freqs magnitude)) / Np.sum magnitude),
   self).
Proof.
  intros Hd Hf Hlen Hnz. unfold _calculate_spectral_centroid.
  rewrite bind_attr, Hd, bind_lift_ok, bind_attr, Hf, bind_lift_ok.
  destruct (Qeq_bool (Np.sum magnitude) 0) eqn:E.
  { apply Qeq_bool_iff in E. contradiction. }
  rewrite (mul_same_length _ _ Hlen), bind_lift_ok.
  rewrite (np_div_ok _ _ Hnz), bind_lift_ok. reflexivity.
Qed.

Lemma second_last_some {A : Type} (d : list A) :
  (2 <= length d)%nat -> exists x, second_last_opt d = Some x.
Proof.
  intro H. unfold second_last_opt.
  destruct (nth_error (rev d) 1) as [x|] eqn:E; [exists x; reflexivity|].
  apply nth_error_None in E. rewrite length_rev in E. lia.
Qed.

Lemma onset_never_raises (self : AdvancedAudioProcessor) (frame : AudioFrame) :
  exists v, _calculate_onset_strength frame self = (Ok v, self) /\ 0 <= v.
Proof.
  destruct (Nat.lt_ge_cases (length (audio_buffer self)) 2) as [Hlt|Hge].
  - exists 0. split; [apply onset_no_previous, Hlt | apply Qle_refl].
  - destruct (second_last_some _ Hge) as [prev Hprev].
    destruct (Qeq_dec (energy prev) 0) as [Hz|Hnz].
    + exists 0. split; [apply (onset_previous_silent _ _ prev); assumption | apply Qle_refl].
    + exists (energy frame / (energy prev + 1e-10)).
      split; [apply onset_previous_audible; assumption|].
      pose proof (energy_nonneg prev) as Hp. pose proof (energy_nonneg frame) as Hc.
      change 1e-10 with (1 # 10000000000).
      apply Qle_shift_div_l; lra.
Qed.

Lemma onset_reads_buffer (s s' : AdvancedAudioProcessor) (frame : AudioFrame) :
  audio_buffer s = audio_buffer s' ->
  fst (_calculate_onset_strength frame s) = fst (_calculate_onset_strength frame s').
Proof.
  intro H. unfold _calculate_onset_strength. rewrite !bind_attr, H.
  destruct (length (audio_buffer s') <? 2)%nat; [reflexivity|]. cbv zeta.
  destruct (1 <? length (audio_buffer s'))%nat; [|reflexivity].
  destruct (second_last_opt (audio_buffer s')); [|reflexivity].
  destruct (Qeq_bool (Np.sum (Np.square a)) 0); [reflexivity|].
  unfold bind, lift, ret.
  destruct (np_div (Np.sum (Np.square frame)) (Np.sum (Np.square a) + 1e-10)); reflexivity.
Qed.

Lemma centroid_never_raises (self : AdvancedAudioProcessor) (magnitude : list Q)
      (d : Q) (freqs : list Q) :
  py_div 1 (samplerate self) = Ok d ->
  Np.rfftfreq (blocksize self) d = Ok freqs ->
  length freqs = length magnitude ->
  exists c, _calculate_spectral_centroid magnitude self = (Ok c, self).
Proof.
  intros Hd Hf Hlen.
  destruct (Qeq_dec (Np.sum magnitude) 0) as [Hz|Hnz].
  - exists 0. unfold _calculate_spectral_centroid.
    rewrite bind_attr, Hd, bind_lift_ok, bind_attr, Hf, bind_lift_ok.
    apply Qeq_bool_iff in Hz. rewrite Hz. reflexivity.
  - eexists. apply (centroid_value self magnitude d freqs); assumption.
Qed.

(** X3.  A frame of the configured size that passes the noise gate and
    carries spectral energy is processed without exception: the band
    selection, the centroid, the onset ratio and the decision all succeed,
    exactly one centroid and one onset value are appended to their
    histories, and the invocation ends with one debounce step on the
    decision. *)
Theorem full_pass {numpy : Numpy}
        (self : AdvancedAudioProcessor) (frame : AudioFrame) (m noiseFloor : Q) :
  bands_ready self ->
  well_sized self frame ->
  Np.mean (Np.square frame) = Ok m ->
  Np.percentile (deque_append 100 (noise_floor_history self) (np_sqrt m)) 10 = Ok noiseFloor ->
  noiseFloor * 1.5 <= np_sqrt m ->
  ~ Np.sum (Np.square (np_rfft_abs frame)) == 0 ->
  let magnitude := np_rfft_abs frame in
  let self0 := set_audio_buffer (deque_append 4 (audio_buffer self) frame) self in
  exists band centroid onset decision,
    Np.take magnitude (freq_band_indices self) = Ok band /\
    _calculate_spectral_centroid magnitude self = (Ok centroid, self) /\
    _calculate_onset_strength frame self0 = (Ok onset, self0) /\
    _make_decision (np_sqrt m) noiseFloor
      (Np.sum (Np.square band) / Np.sum (Np.square magnitude)) centroid onset self
    = (Ok decision, self) /\
    _audio_callback frame self =
    (Ok tt,
     snd (debounce decision
            (set_onset_history (deque_append 8 (onset_history self) onset)
               (set_centroid_history (deque_append 10 (centroid_history self) centroid)
                  (set_noise_floor_history
                     (deque_append 100 (noise_floor_history self) (np_sqrt m)) self0))))).
Proof.
  intros Hready Hsized Hm Hnf Hgate Henergy. cbv zeta.
  set (magnitude := np_rfft_abs frame) in *.
  set (self0 := set_audio_buffer (deque_append 4 (audio_buffer self) frame) self).
  set (self1 := set_noise_floor_history
                  (deque_append 100 (noise_floor_history self) (np_sqrt m)) self0).
  destruct (band_indices_in_range self frame Hready Hsized) as [band Hband].
  fold magnitude in Hband.
  destruct Hready as (d & freqs & Hd & Hf & Hidx).
  destruct Hsized as (Hne & Hlen & Hbins). fold magnitude in Hbins.
  assert (Hfl : length freqs = length magnitude).
  { rewrite (rfftfreq_length _ _ _ Hf), <- Hlen, bins_of_block, Hbins. reflexivity. }
  destruct (centroid_never_raises self magnitude d freqs Hd Hf Hfl) as [centroid Hc].
  assert (Hc1 : _calculate_spectral_centroid magnitude self1 = (Ok centroid, self1)).
  { revert Hc. unfold _calculate_spectral_centroid.
    rewrite !bind_attr. cbn [samplerate blocksize self1 self0
                             set_noise_floor_history set_audio_buffer].
    rewrite Hd, !bind_lift_ok, !bind_attr.
    cbn [samplerate blocksize self1 self0 set_noise_floor_history set_audio_buffer].
    rewrite Hf, !bind_lift_ok.
    destruct (Qeq_bool (Np.sum magnitude) 0).
    - intro H. injection H as <-. reflexivity.
    - unfold bind, lift, ret.
      destruct (Np.mul freqs magnitude); [|discriminate].
      destruct (np_div (Np.sum a) (Np.sum magnitude)); [|discriminate].
      intro H. injection H as <-. reflexivity. }
  set (self2 := set_centroid_history
                  (deque_append 10 (centroid_history self) centroid) self1).
  destruct (onset_never_raises self0 frame) as (onset & Ho & _).
  assert (Ho2 : _calculate_onset_strength frame self2 = (Ok onset, self2)).
  { destruct (onset_never_raises self2 frame) as (v & Hv & _).
    pose proof (onset_reads_buffer self2 self0 frame eq_refl) as E.
    rewrite Hv, Ho in E. cbn [fst] in E. injection E as ->. exact Hv. }
  set (self3 := set_onset_history (deque_append 8 (onset_history self) onset) self2).
  set (ratio := Np.sum (Np.square band) / Np.sum (Np.square magnitude)).
  exists band, centroid, onset. eexists.
  split; [exact Hband|]. split; [exact Hc|]. split; [exact Ho|].
  split; [apply make_decision_value|].
  rewrite audio_callback_unfold. fold self0.
  unfold _process_audio. rewrite bind_attr.
  replace (last_opt (audio_buffer self0)) with (Some frame)
    by (symmetry; apply last_opt_deque_append; lia).
  assert (Hobs : observe_noise_floor frame self0 = (Ok (np_sqrt m, noiseFloor), self1)).
  { unfold observe_noise_floor, bind, lift, attr, assign, ret.
    rewrite Hm. cbn [noise_floor_history set_noise_floor_history set_audio_buffer self0].
    rewrite Hnf. reflexivity. }
  rewrite (bind_ok _ _ _ _ _ Hobs). cbn [fst snd].
  apply Qltb_false_iff in Hgate. rewrite Hgate.
  cbv zeta. rewrite bind_attr.
  change (freq_band_indices self1) with (freq_band_indices self).
  fold magnitude. rewrite Hband, bind_lift_ok.
  destruct (Qeq_bool (Np.sum (Np.square magnitude)) 0) eqn:E.
  { apply Qeq_bool_iff in E. contradiction. }
  rewrite (np_div_ok _ _ Henergy), bind_lift_ok. fold ratio.
  rewrite (bind_ok _ _ _ _ _ Hc1), bind_attr, bind_assign.
  change (set_centroid_history (deque_append 10 (centroid_history self1) centroid) self1)
    with self2.
  rewrite (bind_ok _ _ _ _ _ Ho2), bind_attr, bind_assign.
  change (set_onset_history (deque_append 8 (onset_history self2) onset) self2)
    with self3.
  rewrite (bind_ok _ _ _ _ _ (make_decision_value self3 _ _ _ _ _)).
  rewrite !debounce_value. cbn [snd]. reflexivity.
Qed.

Lemma full_pass_witness :
  fst (@_audio_callback TwoSample.numpy TwoSample.burst
         (@feed TwoSample.numpy TwoSample.processor [TwoSample.quiet])) = Ok tt.
Proof.
  set (self := @feed TwoSample.numpy TwoSample.processor [TwoSample.quiet]).
  assert (Hready : bands_ready self).
  { apply (bands_ready_config TwoSample.processor).
    - apply (@config_feed TwoSample.numpy).
    - apply bands_ready_init. vm_compute. reflexivity. }
  assert (Hsized : @well_sized TwoSample.numpy self TwoSample.burst).
  { split; [discriminate | split; vm_compute; reflexivity]. }
  let r := eval vm_compute in (Np.mean (Np.square TwoSample.burst)) in
  match r with
  | Ok ?m =>
      assert (Hm : Np.mean (Np.square TwoSample.burst) = Ok m)
        by (vm_compute; reflexivity);
      let p := eval vm_compute in
        (Np.percentile
           (deque_append 100 (noise_floor_history self) (@np_sqrt TwoSample.numpy m)) 10) in
      match p with
      | Ok ?nf =>
          assert (Hp : Np.percentile
                         (deque_append 100 (noise_floor_history self)
                            (@np_sqrt TwoSample.numpy m)) 10 = Ok nf)
            by (vm_compute; reflexivity);
          assert (Hge : nf * 1.5 <= @np_sqrt TwoSample.numpy m)
            by (vm_compute; intro E; discriminate E);
          assert (He : ~ Np.sum (Np.square (@np_rfft_abs TwoSample.numpy TwoSample.burst)) == 0)
            by (vm_compute; intro E; discriminate E);
          destruct (@full_pass TwoSample.numpy self TwoSample.burst m nf
                      Hready Hsized Hm Hp Hge He) as (b & c & o & d & _ & _ & _ & _ & H)
      end
  end.
  rewrite H. reflexivity.
Defined.

(** ** No exception on frames of the configured size *)

Lemma well_sized_config {numpy : Numpy} (self self' : AdvancedAudioProcessor)
      (frame : AudioFrame) :
  config self' = config self -> well_sized self frame -> well_sized self' frame.
Proof.
  unfold config. intros H (Hne & Hlen & Hbins).
  injection H as _ Hbs _ _ _.
  repeat split; try assumption. rewrite Hbs. exact Hlen.
Qed.

Lemma callback_ok {numpy : Numpy} (self : AdvancedAudioProcessor) (frame : AudioFrame) :
  bands_ready self -> well_sized self frame ->
  fst (_audio_callback frame self) = Ok tt.
Proof.
  intros Hready Hsized. pose proof Hsized as (Hne & _ & _).
  destruct (observe_noise_floor_value frame self Hne) as (m & nf & Hm & Hnf & _).
  destruct (Qlt_le_dec (np_sqrt m) (nf * 1.5)) as [Hlt|Hge].
  - rewrite (callback_gated self frame m nf Hm Hnf Hlt). reflexivity.
  - destruct (Qeq_dec (Np.sum (Np.square (np_rfft_abs frame))) 0) as [Hz|Hnz].
    + destruct (callback_zero_energy self frame Hready (conj Hsized Hz)) as (m' & _ & H).
      rewrite H. reflexivity.
    + destruct (full_pass self frame m nf Hready Hsized Hm Hnf Hge Hnz)
        as (b & c & o & d & _ & _ & _ & _ & H).
      rewrite H. reflexivity.
Qed.

(** X4.  A successfully constructed processor never raises on frames of
    the configured size: whatever the stream, each invocation of the
    callback returns normally, through the gate, the zero-energy return
    or a full pass. *)
Theorem callback_never_raises {numpy : Numpy} (sr : Q) (bs : Z) (sens : Q)
        (frames : list AudioFrame) (frame : AudioFrame) :
  fst (__init__ sr bs sens) = Ok tt ->
  let self := snd (__init__ sr bs sens) in
  Forall (well_sized self) (frames ++ [frame]) ->
  fst (_audio_callback frame (feed self frames)) = Ok tt.
Proof.
  intros Hinit self Hall.
  apply Forall_app in Hall. destruct Hall as [_ Hframe]. apply Forall_inv in Hframe.
  pose proof (config_feed self frames) as Hcfg.
  apply callback_ok.
  - apply (bands_ready_config self); [exact Hcfg|]. apply bands_ready_init, Hinit.
  - apply (well_sized_config self); assumption.
Qed.

Lemma callback_never_raises_witness :
  fst (@_audio_callback TwoSample.numpy TwoSample.silence
         (@feed TwoSample.numpy (snd (__init__ 4000 2 0.5))
            [TwoSample.quiet; TwoSample.burst])) = Ok tt.
Proof.
  apply (@callback_never_raises TwoSample.numpy 4000 2 0.5
           [TwoSample.quiet; TwoSample.burst] TwoSample.silence).
  - vm_compute. reflexivity.
  - repeat constructor; try discriminate; vm_compute; reflexivity.
Defined.

(** ** Frames of the wrong size *)




(** ** Bounded memory *)

Lemma buffers_bounded_callback {numpy : Numpy} (indata : AudioFrame) :
  preserves (fun self => (length (audio_buffer self) <= 4)%nat /\
                         (length (centroid_history self) <= 10)%nat /\
                         (length (onset_history self) <= 8)%nat)
            (_audio_callback indata).
Proof.
  unfold_methods. unfold debounce, reset_loud. walk_method;
    apply preserves_assign; intros self (Hb & Hc & Ho);
    cbn [audio_buffer centroid_history onset_history set_audio_buffer
         set_noise_floor_history set_loud_counter set_loud set_centroid_history
         set_onset_history];
    repeat split; try assumption; apply deque_append_length.
Qed.

Lemma buffers_bounded_run {numpy : Numpy} (sr : Q) (bs : Z) (sens : Q)
      (evs : list event) :
  (length (audio_buffer (run (snd (__init__ sr bs sens)) evs)) <= 4)%nat /\
  (length (centroid_history (run (snd (__init__ sr bs sens)) evs)) <= 10)%nat /\
  (length (onset_history (run (snd (__init__ sr bs sens)) evs)) <= 8)%nat.
Proof.
  apply (run_invariant (fun self => (length (audio_buffer self) <= 4)%nat /\
                                    (length (centroid_history self) <= 10)%nat /\
                                    (length (onset_history self) <= 8)%nat)).
  - intro indata. apply buffers_bounded_callback.
  - intro s. unfold_methods. walk_method; apply preserves_assign; intros self H; exact H.
  - unfold __init__.
    assert (Hp : preserves (fun self => (length (audio_buffer self) <= 4)%nat /\
                                        (length (centroid_history self) <= 10)%nat /\
                                        (length (onset_history self) <= 8)%nat)
                           _setup_frequency_bands).
    { unfold _setup_frequency_bands. walk_method;
        apply preserves_assign; intros self H; exact H. }
    apply Hp. cbn. lia.
Qed.

(** X6.  The frame buffer, the centroid history and the onset history
    never hold more than 4, 10 and 8 entries, whatever frames and
    sensitivity changes the processor has seen since construction; the
    frame just received is always the last entry of the buffer. *)
Theorem buffers_stay_bounded {numpy : Numpy} (sr : Q) (bs : Z) (sens : Q)
        (evs : list event) (indata : AudioFrame) :
  let self := run (snd (__init__ sr bs sens)) evs in
  (length (audio_buffer self) <= 4)%nat /\
  (length (centroid_history self) <= 10)%nat /\
  (length (onset_history self) <= 8)%nat /\
  last_opt (audio_buffer (snd (_audio_callback indata self))) = Some indata.
Proof.
  cbv zeta. destruct (buffers_bounded_run sr bs sens evs) as (Hb & Hc & Ho).
  repeat split; try assumption.
  set (self := run (snd (__init__ sr bs sens)) evs).
  rewrite audio_callback_unfold.
  assert (Hk : preserves
                 (fun s => audio_buffer s = deque_append 4 (audio_buffer self) indata)
                 _process_audio).
  { unfold_methods. unfold debounce, reset_loud. walk_method;
      apply preserves_assign; intros s H; exact H. }
  rewrite (Hk (set_audio_buffer (deque_append 4 (audio_buffer self) indata) self) eq_refl).
  apply last_opt_deque_append. lia.
Qed.

(** ** How fast the flag can rise *)

Section Triples.

Context {A B : Type}.
Variables P Q : AdvancedAudioProcessor -> Prop.

Lemma hoare_of_preserves (m : M A) :
  preserves P m -> (forall self, P self -> Q self) -> hoare P m Q.
Proof. intros Hm HPQ self H. apply HPQ, Hm, H. Qed.

Lemma hoare_bind (m : M A) (k : A -> M B) :
  preserves P m -> (forall self, P self -> Q self) ->
  (forall a, hoare P (k a) Q) -> hoare P (bind m k) Q.
Proof.
  intros Hm HPQ Hk self H. unfold bind.
  specialize (Hm self H).
  destruct (m self) as [[a|e] self']; cbn [snd] in *.
  - apply Hk, Hm.
  - apply HPQ, Hm.
Qed.

End Triples.

Ltac walk_triple :=
  repeat match goal with
         | |- hoare _ (bind _ _) _ => apply hoare_bind; [ | | intro]
         | |- hoare _ (match ?x with _ => _ end) _ => destruct x
         | |- hoare _ _ _ => progress cbv zeta
         end.

Lemma counter_step {numpy : Numpy} (indata : AudioFrame) (c : Z) :
  (0 <= c)%Z ->
  hoare (fun self => loud_counter self = c)
        (_audio_callback indata)
        (fun self => (0 <= loud_counter self <= c + 1)%Z).
Proof.
  intro Hc. unfold _audio_callback, _process_audio. walk_triple;
    match goal with
    | |- preserves _ _ =>
        unfold_methods; walk_method; apply preserves_assign; intros self H; exact H
    | |- hoare _ reset_loud _ =>
        intros self H; rewrite reset_loud_value;
        cbn [snd loud_counter set_loud set_loud_counter]; lia
    | |- hoare _ (debounce ?d) _ =>
        intros self H; rewrite debounce_value; cbv zeta;
        cbn [snd loud_counter set_loud set_loud_counter]; rewrite H; destruct d; lia
    | |- hoare _ (ret _) _ =>
        intros self H; cbn [snd ret]; cbn beta in H; lia
    | |- forall self, _ -> _ =>
        intros self H; cbn beta in H; lia
    end.
Qed.

Lemma debounce_inv_feed {numpy : Numpy} (self : AdvancedAudioProcessor)
      (frames : list AudioFrame) :
  debounce_inv self -> debounce_inv (feed self frames).
Proof.
  intro H. induction frames as [|x frames IH] using rev_ind; [exact H|].
  rewrite feed_snoc. apply debounce_inv_callback, IH.
Qed.

Lemma counter_bounded_by_frames {numpy : Numpy} (self : AdvancedAudioProcessor)
      (frames : list AudioFrame) :
  (0 <= loud_counter self)%Z ->
  (0 <= loud_counter (feed self frames)
   <= loud_counter self + Z.of_nat (length frames))%Z.
Proof.
  intro H0. induction frames as [|x frames IH] using rev_ind.
  - cbn. lia.
  - rewrite feed_snoc, length_app. cbn [length].
    pose proof (counter_step x (loud_counter (feed self frames)) (proj1 IH)
                  (feed self frames) eq_refl) as Hs.
    cbn beta in Hs. lia.
Qed.

(** X7.  One invocation raises the debounce counter by at most one and
    never makes it negative; so after [n] frames a freshly constructed
    processor has a counter of at most [n], and its flag cannot be up
    before the second frame. *)
Theorem flag_needs_two_frames {numpy : Numpy} :
  (forall self indata,
      (0 <= loud_counter self)%Z ->
      (0 <= loud_counter (snd (_audio_callback indata self)) <= loud_counter self + 1)%Z) /\
  (forall sr bs sens frames,
      let self := feed (snd (__init__ sr bs sens)) frames in
      (0 <= loud_counter self <= Z.of_nat (length frames))%Z /\
      ((length frames < 2)%nat -> loud self = false)).
Proof.
  split.
  - intros self indata H0.
    exact (counter_step indata (loud_counter self) H0 self eq_refl).
  - intros sr bs sens frames. cbv zeta.
    destruct (init_debounce_state sr bs sens) as (Hc & Hl & Ht).
    assert (Hb : (0 <= loud_counter (feed (snd (__init__ sr bs sens)) frames)
                  <= Z.of_nat (length frames))%Z).
    { pose proof (counter_bounded_by_frames (snd (__init__ sr bs sens)) frames) as H.
      rewrite Hc in H. apply H. lia. }
    split; [exact Hb|]. intro Hlen.
    destruct (debounce_inv_feed _ frames (debounce_inv_init sr bs sens)) as (_ & Hloud & Hthr).
    rewrite Hloud, Hthr. apply Z.leb_gt. lia.
Qed.

Lemma flag_needs_two_frames_witness :
  (0 <= loud_counter
          (snd (@_audio_callback TwoSample.numpy TwoSample.burst TwoSample.processor))
   <= loud_counter TwoSample.processor + 1)%Z /\
  loud (@feed TwoSample.numpy (snd (__init__ 4000 2 0.5)) [TwoSample.burst]) = false.
Proof.
  split.
  - apply (proj1 (@flag_needs_two_frames TwoSample.numpy)). vm_compute. discriminate.
  - apply (proj2 (@flag_needs_two_frames TwoSample.numpy) 4000 2%Z 0.5 [TwoSample.burst]).
    cbn. lia.
Defined.

(** ** The fusion rule behind the gate *)



(** ** Ranges of the spectral features *)












(** ** Diagnostics *)





(** * The simplified processor *)

Lemma lastn_as_firstn {A : Type} (k : nat) (l : list A) :
  lastn k l = rev (firstn k (rev l)).
Proof.
  unfold lastn. rewrite firstn_rev, rev_involutive. reflexivity.
Qed.

Lemma deque_append_lastn {A : Type} (k : nat) (l : list A) (x : A) :
  deque_append k (lastn k l) x = lastn k (l ++ [x]).
Proof.
  change (deque_append k (lastn k l) x) with (lastn k (lastn k l ++ [x])).
  rewrite !lastn_as_firstn, !rev_app_distr, rev_involutive. cbn [rev app].
  destruct k as [|k]; [reflexivity|].
  rewrite !firstn_cons, firstn_firstn, Nat.min_l by lia. reflexivity.
Qed.

Lemma lastn_short {A : Type} (k : nat) (l : list A) :
  (length l <= k)%nat -> lastn k l = l.
Proof.
  intro H. unfold lastn. replace (length l - k)%nat with 0%nat by lia. reflexivity.
Qed.

Lemma lastn_length {A : Type} (k : nat) (l : list A) : (length (lastn k l) <= k)%nat.
Proof.
  unfold lastn. rewrite length_skipn. lia.
Qed.

Lemma simplified_decision_reads_mask {numpy : Numpy} (s s' : Simplified.SimplifiedAudioProcessor)
      (frame : AudioFrame) :
  Simplified.freq_band_mask s = Simplified.freq_band_mask s' ->
  Simplified.raw_decision s frame = Simplified.raw_decision s' frame.
Proof.
  intro H. unfold Simplified.raw_decision. rewrite H. reflexivity.
Qed.

Lemma simplified_callback_ok {numpy : Numpy} (self : Simplified.SimplifiedAudioProcessor)
      (frame : AudioFrame) (d : bool) :
  Simplified.raw_decision self frame = Ok d ->
  Simplified._callback frame false self =
  (Ok tt,
   Simplified.mkSimplified (Simplified.samplerate self) (Simplified.blocksize self)
     (2 <=? py_sum_bool (deque_append 3 (Simplified.history self) d))%Z
     (Simplified.freq_band_mask self)
     (deque_append 3 (Simplified.history self) d)).
Proof.
  intro H. unfold Simplified._callback. rewrite H. reflexivity.
Qed.

Lemma simplified_feed_snoc {numpy : Numpy} (self : Simplified.SimplifiedAudioProcessor)
      (stream : list (AudioFrame * bool)) (frame : AudioFrame) (status : bool) :
  Simplified.feed self (stream ++ [(frame, status)]) =
  snd (Simplified._callback frame status (Simplified.feed self stream)).
Proof.
  unfold Simplified.feed. rewrite fold_left_app. reflexivity.
Qed.

Lemma simplified_mask_fixed {numpy : Numpy} (self : Simplified.SimplifiedAudioProcessor)
      (stream : list (AudioFrame * bool)) :
  Simplified.freq_band_mask (Simplified.feed self stream) = Simplified.freq_band_mask self.
Proof.
  induction stream as [|[f st] stream IH] using rev_ind; [reflexivity|].
  rewrite simplified_feed_snoc. unfold Simplified._callback.
  destruct st; [exact IH|].
  destruct (Simplified.raw_decision (Simplified.feed self stream) f); exact IH.
Qed.

(** X12.  The simplified processor votes over the last three decisions.
    After a stream of frames delivered without status flag, each with a
    raw decision, its history holds the last three decisions seen (fewer
    at the start) and its flag is up exactly when at least two of them
    are true, whether or not those two are consecutive. *)
Theorem simplified_majority_of_three {numpy : Numpy}
        (self : Simplified.SimplifiedAudioProcessor)
        (frames : list AudioFrame) (decisions : list bool) :
  (length (Simplified.history self) <= 3)%nat ->
  Forall2 (fun f d => Simplified.raw_decision self f = Ok d) frames decisions ->
  let self' := Simplified.feed self (map (fun f => (f, false)) frames) in
  let recent := lastn 3 (Simplified.history self ++ decisions) in
  Simplified.history self' = recent /\
  (length recent <= 3)%nat /\
  (frames <> [] ->
   (Simplified.is_loud self' = true <-> (2 <= py_sum_bool recent)%Z)).
Proof.
  intros Hlen Hall. cbv zeta.
  assert (Hhist :
    Simplified.history (Simplified.feed self (map (fun f => (f, false)) frames)) =
    lastn 3 (Simplified.history self ++ decisions) /\
    (frames <> [] ->
     Simplified.loud (Simplified.feed self (map (fun f => (f, false)) frames)) =
     (2 <=? py_sum_bool (lastn 3 (Simplified.history self ++ decisions)))%Z)).
  { revert decisions Hall.
    induction frames as [|f frames IH] using rev_ind; intros decisions Hall.
    - inversion Hall; subst. rewrite app_nil_r. cbn [map Simplified.feed fold_left].
      split; [symmetry; apply lastn_short, Hlen | intro H; congruence].
    - apply Forall2_app_inv_l in Hall.
      destruct Hall as (ds & dl & Hds & Hdl & ->).
      inversion Hdl as [|? d ? ? Hd Hnil]; subst. inversion Hnil; subst.
      destruct (IH ds Hds) as [IHh _].
      rewrite map_app. cbn [map]. rewrite simplified_feed_snoc.
      rewrite (simplified_decision_reads_mask self
                 (Simplified.feed self (map (fun f => (f, false)) frames)) f
                 (eq_sym (simplified_mask_fixed self _))) in Hd.
      rewrite (simplified_callback_ok _ _ _ Hd). cbn [snd Simplified.history Simplified.loud].
      rewrite IHh, deque_append_lastn, app_assoc.
      split; [reflexivity | intros _; reflexivity]. }
  destruct Hhist as [Hh Hl].
  split; [exact Hh|]. split; [apply lastn_length|].
  intro Hne. unfold Simplified.is_loud. rewrite (Hl Hne). apply Z.leb_le.
Qed.

Lemma simplified_majority_of_three_witness :
  Simplified.is_loud
    (@Simplified.feed TwoSample.numpy simplified_two_sample
       (map (fun f => (f, false)) [TwoSample.burst; rumble; TwoSample.burst])) = true
  <-> (2 <= py_sum_bool (lastn 3 ([] ++ [true; false; true])))%Z.
Proof.
  refine (proj2 (proj2 (@simplified_majority_of_three TwoSample.numpy
            simplified_two_sample [TwoSample.burst; rumble; TwoSample.burst]
            [true; false; true] _ _)) _).
  - cbn. lia.
  - repeat constructor; vm_compute; reflexivity.
  - discriminate.
Defined.

(** X13.  A frame delivered with a status flag leaves no trace in the
    simplified processor: after any stream its state is the one it would
    have without the flagged frames, so the flag and the vote are those of
    the unflagged frames alone. *)
Theorem simplified_flagged_frames_are_dropped {numpy : Numpy}
        (self : Simplified.SimplifiedAudioProcessor) (stream : list (AudioFrame * bool)) :
  Simplified.feed self stream =
  Simplified.feed self (filter (fun p => negb (snd p)) stream).
Proof.
  revert self. induction stream as [|[f st] stream IH]; intro self; [reflexivity|].
  cbn [filter snd]. destruct st; cbn [negb].
  - unfold Simplified.feed at 1. cbn [fold_left fst snd Simplified._callback].
    apply IH.
  - unfold Simplified.feed. cbn [fold_left]. apply IH.
Qed.



Lemma lastn_three_of_pair {A : Type} (l : list A) (a b : A) :
  lastn 3 (l ++ [a; b]) =
  match last_opt l with
  | None => [a; b]
  | Some e => [e; a; b]
  end.
Proof.
  rewrite lastn_as_firstn, rev_app_distr. unfold last_opt. cbn [rev app].
  destruct (rev l) as [|e r]; reflexivity.
Qed.

Lemma last_opt_split {A : Type} (l : list A) (x : A) :
  last_opt l = Some x -> exists l0, l = l0 ++ [x].
Proof.
  unfold last_opt. intro H. destruct (rev l) as [|y r] eqn:E; [discriminate H|].
  injection H as ->. exists (rev r).
  rewrite <- (rev_involutive l), E. reflexivity.
Qed.

(** X15.  In the simplified processor two agreeing decisions in a row
    settle the flag: if the decision on a frame equals the previous one,
    the flag after the frame equals that decision, whatever came
    before. *)
Theorem simplified_two_in_a_row {numpy : Numpy}
        (self : Simplified.SimplifiedAudioProcessor) (frame : AudioFrame) (d : bool) :
  Simplified.raw_decision self frame = Ok d ->
  last_opt (Simplified.history self) = Some d ->
  Simplified.is_loud (snd (Simplified._callback frame false self)) = d.
Proof.
  intros Hd Hlast. rewrite (simplified_callback_ok _ _ _ Hd).
  unfold Simplified.is_loud. cbn [snd Simplified.loud].
  destruct (last_opt_split _ _ Hlast) as [h0 Hh]. rewrite Hh.
  change (deque_append 3 (h0 ++ [d]) d) with (lastn 3 ((h0 ++ [d]) ++ [d])).
  rewrite <- app_assoc. cbn [app]. rewrite lastn_three_of_pair.
  destruct (last_opt h0) as [[|]|]; destruct d; reflexivity.
Qed.

Lemma simplified_two_in_a_row_witness :
  Simplified.is_loud
    (snd (@Simplified._callback TwoSample.numpy rumble false
            (@Simplified.feed TwoSample.numpy simplified_two_sample
               [(TwoSample.burst, false); (TwoSample.burst, false); (rumble, false)])))
  = false.
Proof.
  apply (@simplified_two_in_a_row TwoSample.numpy); vm_compute; reflexivity.
Defined.


(** * The bird, driven by the flag *)

Lemma py_min_le (a b : Q) : py_min a b <= a /\ py_min a b <= b.
Proof.
  unfold py_min. destruct (Qltb_reflect b a) as [H|H]; split; lra.
Qed.

Lemma py_max_ge (a b : Q) : a <= py_max a b /\ b <= py_max a b.
Proof.
  unfold py_max. destruct (Qltb_reflect a b) as [H|H]; split; lra.
Qed.

Lemma clamp_angle_range (a : Q) : -60 <= py_max (-60) (py_min 60 a) <= 60.
Proof.
  pose proof (py_min_le 60 a) as [H1 _].
  pose proof (py_max_ge (-60) (py_min 60 a)) as [H2 _].
  split; [exact H2|].
  unfold py_max. destruct (Qltb (-60) (py_min 60 a)); lra.
Qed.

Lemma update_range (b : Game.Bird) :
  0 <= Game.max_fall b ->
  0 <= Game.y (Game.update b) /\
  Game.vel (Game.update b) <= Game.max_fall b /\
  -60 <= Game.angle (Game.update b) <= 60 /\
  ((length (Game.trail b) <= 5)%nat -> (length (Game.trail (Game.update b)) <= 5)%nat) /\
  Game.gravity (Game.update b) = Game.gravity b /\
  Game.lift (Game.update b) = Game.lift b /\
  Game.max_fall (Game.update b) = Game.max_fall b /\
  Game.x (Game.update b) = Game.x b.
Proof.
  intro Hmf. unfold Game.update. cbv zeta.
  cbn [Game.y Game.vel Game.angle Game.trail Game.gravity Game.lift Game.max_fall Game.x].
  pose proof (py_min_le (Game.vel b + Game.gravity b) (Game.max_fall b)) as [_ Hv].
  split; [|split; [|split; [|split]]].
  - destruct (Qltb_reflect
                (Game.y b + py_min (Game.vel b + Game.gravity b) (Game.max_fall b)) 0); lra.
  - destruct (Qltb (Game.y b + py_min (Game.vel b + Game.gravity b) (Game.max_fall b)) 0);
      lra.
  - apply clamp_angle_range.
  - intro Hlen.
    match goal with
    | |- (length (if (5 <? length ?t)%nat then tl ?t else ?t) <= 5)%nat =>
        destruct (Nat.ltb_spec 5 (length t)) as [H|H];
        [assert (Ht : length t = 6%nat) by (rewrite length_app in *; cbn [length] in *; lia);
         destruct t; cbn [tl length] in *; lia
        | exact H]
    end.
  - repeat split.
Qed.

(** X16.  Whatever the flag does from tick to tick, the bird driven by
    it stays in range: after each tick it is at or below the ceiling
    ([y >= 0]), falls no faster than [max_fall], is tilted between -60
    and 60 degrees and drags a trail of at most five points; its gravity,
    lift, terminal speed and horizontal position never change. *)
Theorem bird_stays_in_range (b : Game.Bird) (flags : list bool) :
  0 <= Game.max_fall b ->
  (length (Game.trail b) <= 5)%nat ->
  let b' := fold_left (fun s is_loud => Game.tick is_loud s) flags b in
  (flags <> [] ->
   0 <= Game.y b' /\ Game.vel b' <= Game.max_fall b /\ -60 <= Game.angle b' <= 60) /\
  (length (Game.trail b') <= 5)%nat /\
  Game.gravity b' = Game.gravity b /\
  Game.lift b' = Game.lift b /\
  Game.max_fall b' = Game.max_fall b /\
  Game.x b' = Game.x b.
Proof.
  intros Hmf Htrail. cbv zeta.
  induction flags as [|l flags IH] using rev_ind.
  - cbn [fold_left]. split; [intro H; congruence|]. repeat split. exact Htrail.
  - rewrite fold_left_app. cbn [fold_left].
    set (b0 := fold_left (fun s is_loud => Game.tick is_loud s) flags b) in *.
    destruct IH as (_ & Ht & Hg & Hl & Hm & Hx).
    set (b1 := if l then Game.flap b0 else b0).
    assert (Hb1 : Game.max_fall b1 = Game.max_fall b /\
                  Game.gravity b1 = Game.gravity b /\
                  Game.lift b1 = Game.lift b /\
                  Game.x b1 = Game.x b /\
                  (length (Game.trail b1) <= 5)%nat).
    { subst b1. destruct l; cbn; auto. }
    destruct Hb1 as (Hm1 & Hg1 & Hl1 & Hx1 & Ht1).
    assert (Hmf1 : 0 <= Game.max_fall b1) by (rewrite Hm1; exact Hmf).
    destruct (update_range b1 Hmf1) as (Hy & Hv & Ha & Htr & Hg' & Hl' & Hm' & Hx').
    unfold Game.tick. fold b1.
    split; [intros _; rewrite <- Hm1; auto|].
    split; [apply Htr, Ht1|].
    rewrite Hg', Hl', Hm', Hx'. auto.
Qed.

Lemma bird_stays_in_range_witness :
  0 <= Game.y (fold_left (fun s is_loud => Game.tick is_loud s) [true; false; true]
                 (Game.mkBird 150 250 0 0.4 (-4.5) 7 0 0 40 30 [])).
Proof.
  refine (proj1 (proj1 (bird_stays_in_range
                          (Game.mkBird 150 250 0 0.4 (-4.5) 7 0 0 40 30 [])
                          [true; false; true] _ _) _)).
  - vm_compute. intro E. discriminate E.
  - cbn. lia.
  - discriminate.
Defined.

(** X17.  A tick with the flag up restarts the bird's motion: the
    outcome does not depend on the velocity or target angle it had.  If
    lift plus gravity is not positive and within the terminal speed, the
    bird does not sink during that tick; unless it reaches the ceiling it
    moves by exactly lift plus gravity and keeps that velocity.  A tick
    with the flag down, for a bird that is not moving up, does not raise
    it. *)
Theorem flag_drives_the_bird (b : Game.Bird) :
  (forall v ta,
      Game.tick true
        (Game.mkBird (Game.x b) (Game.y b) v (Game.gravity b) (Game.lift b)
           (Game.max_fall b) (Game.angle b) ta (Game.w b) (Game.h b) (Game.trail b))
      = Game.tick true b) /\
  (0 <= Game.y b ->
   Game.lift b + Game.gravity b <= 0 ->
   Game.lift b + Game.gravity b <= Game.max_fall b ->
   Game.y (Game.tick true b) <= Game.y b /\
   (0 <= Game.y b + (Game.lift b + Game.gravity b) ->
    Game.y (Game.tick true b) = Game.y b + (Game.lift b + Game.gravity b) /\
    Game.vel (Game.tick true b) = Game.lift b + Game.gravity b)) /\
  (0 <= Game.y b ->
   0 <= Game.vel b + Game.gravity b ->
   0 <= Game.max_fall b ->
   Game.y b <= Game.y (Game.tick false b)).
Proof.
  split; [|split].
  - intros v ta. reflexivity.
  - intros Hy Hneg Hmf.
    unfold Game.tick, Game.flap, Game.update. cbv zeta.
    cbn [Game.y Game.vel Game.angle Game.trail Game.gravity Game.lift Game.max_fall Game.x].
    assert (Hmin : py_min (Game.lift b + Game.gravity b) (Game.max_fall b) =
                   Game.lift b + Game.gravity b).
    { unfold py_min.
      destruct (Qltb_reflect (Game.max_fall b) (Game.lift b + Game.gravity b)) as [H|H];
        [lra | reflexivity]. }
    rewrite Hmin.
    destruct (Qltb_reflect (Game.y b + (Game.lift b + Game.gravity b)) 0) as [H|H].
    + split; [exact Hy | intro H0; lra].
    + split; [lra | intros _; split; reflexivity].
  - intros Hy Hv Hmf.
    unfold Game.tick, Game.update. cbv zeta. cbn [Game.y].
    pose proof (py_min_le (Game.vel b + Game.gravity b) (Game.max_fall b)) as [_ _].
    assert (Hmin : 0 <= py_min (Game.vel b + Game.gravity b) (Game.max_fall b)).
    { unfold py_min.
      destruct (Qltb (Game.max_fall b) (Game.vel b + Game.gravity b)); assumption. }
    destruct (Qltb_reflect
                (Game.y b + py_min (Game.vel b + Game.gravity b) (Game.max_fall b)) 0); lra.
Qed.

Lemma flag_drives_the_bird_witness :
  Game.vel (Game.tick true (Game.mkBird 150 250 3 0.4 (-4.5) 7 0 0 40 30 []))
  = -4.5 + 0.4.
Proof.
  refine (proj2 (proj2 (proj1 (proj2 (flag_drives_the_bird
            (Game.mkBird 150 250 3 0.4 (-4.5) 7 0 0 40 30 []))) _ _ _) _)).
  - vm_compute. intro E. discriminate E.
  - vm_compute. intro E. discriminate E.
  - vm_compute. intro E. discriminate E.
  - vm_compute. intro E. discriminate E.
Defined.

(** The two-sample simplified processor is the one its constructor
    builds. *)
Example simplified_two_sample_constructed :
  Simplified.__init__ 4000 2 = Ok simplified_two_sample.
Proof. vm_compute. reflexivity. Qed.
